(** * Personal Finance Chatbot: a shallow embedding of [main.py]

    The Python module is a Streamlit page around four functions:
    [build_prompt], [generate_budget_summary], [call_hf_inference] and
    [call_watson_assistant].  This development embeds them as Rocq functions
    and proves the properties the specification states about them.

    Conventions.
    - A Python [str] is a Rocq [string] holding its UTF-8 bytes.
    - A Python [float] is a binary64 number: Rocq's primitive [float].
    - A value decoded from JSON is a [json] tree.
    - The network is an oracle from requests to outcomes; running a client
      yields the list of requests it issued together with its result. *)

From Stdlib Require Import Bool List ZArith Lia Ascii String.
From Stdlib Require Import Floats DecimalString.
Import ListNotations.

Local Open Scope string_scope.

(** ** Python string operations used by the module *)

Module PyStr.

(** [s.startswith(p)] *)
Fixpoint startswith (p s : string) : bool :=
  match p, s with
  | EmptyString, _ => true
  | String _ _, EmptyString => false
  | String a p', String b s' => Ascii.eqb a b && startswith p' s'
  end.

(** [needle in hay] on two strings: substring search. *)
Fixpoint contains (needle hay : string) : bool :=
  startswith needle hay ||
  match hay with
  | EmptyString => false
  | String _ hay' => contains needle hay'
  end.

(** [s.endswith(p)] *)
Fixpoint endswith (p s : string) : bool :=
  String.eqb p s ||
  match s with
  | EmptyString => false
  | String _ s' => endswith p s'
  end.

(** [sep.join(l)] *)
Fixpoint join (sep : string) (l : list string) : string :=
  match l with
  | [] => ""
  | [x] => x
  | x :: l' => x ++ sep ++ join sep l'
  end.

(** The two characters backslash and [n]: what the Python literal
    ["\\n"] denotes.  It is not the line feed ["\n"]. *)
Definition backslash_n : string :=
  String (ascii_of_nat 92) (String (ascii_of_nat 110) EmptyString).

(** The line feed character, Python's ["\n"]. *)
Definition newline : string := String (ascii_of_nat 10) EmptyString.

End PyStr.

(** ** Prompt engineering helpers (main.py, lines 88-96) *)

Definition student_tone : string :=
  "Clear, friendly, simple. Define financial terms in plain English and give short examples.".
Definition student_depth : string :=
  "Provide practical steps a student can follow and a short sample monthly budget table.".
Definition professional_tone : string :=
  "Concise, professional, data-forward. Use precise terminology and include numeric examples where helpful.".
Definition professional_depth : string :=
  "Provide trade-offs and a recommended allocation by percentage if relevant.".

(** The [if persona == "student": ... else: ...] statement: the pair
    [(tone, depth)] it assigns. *)
Definition persona_text (persona : string) : string * string :=
  if String.eqb persona "student"
  then (student_tone, student_depth)
  else (professional_tone, professional_depth).

(** The f-string of line 95, as a function of its three holes. *)
Definition prompt_template (tone depth user_question : string) : string :=
  "You are a helpful personal finance assistant. " ++ tone ++ " " ++ depth
  ++ PyStr.backslash_n ++ PyStr.backslash_n ++ "User question: " ++ user_question
  ++ PyStr.backslash_n ++ PyStr.backslash_n ++ "Output:".

Definition build_prompt (user_question persona : string) : string :=
  let '(tone, depth) := persona_text persona in
  prompt_template tone depth user_question.

(** ** Python floats and their formatting

    A Python [float] is a binary64 number; Rocq's primitive [float] is the
    same format with the same round-to-nearest-even arithmetic.  The format
    specifications [,.2f] and [.0f] print the exact binary value rounded
    half-to-even to the requested number of decimals. *)

Module PyFloat.

Local Open Scope Z_scope.

(** [n / d] rounded to the nearest integer, ties to even ([0 <= n], [0 < d]). *)
Definition div_half_even (n d : Z) : Z :=
  let q := n / d in
  match 2 * (n mod d) ?= d with
  | Lt => q
  | Gt => q + 1
  | Eq => if Z.even q then q else q + 1
  end.

(** The integer nearest to [m * 2^e * 10^p]. *)
Definition scaled (p : nat) (m : positive) (e : Z) : Z :=
  if 0 <=? e then Zpos m * 2 ^ e * 10 ^ Z.of_nat p
  else div_half_even (Zpos m * 10 ^ Z.of_nat p) (2 ^ (- e)).

Definition decimal (n : Z) : string :=
  DecimalString.NilEmpty.string_of_uint (N.to_uint (Z.to_N n)).

Fixpoint zeros (k : nat) : string :=
  match k with O => "" | S k' => String "0" (zeros k') end.

(** Left-pad with ["0"] up to [width] characters. *)
Definition zfill (width : nat) (s : string) : string :=
  (zeros (width - String.length s) ++ s)%string.

(** The thousands separator of the [,] option. *)
Fixpoint commas (s : string) : string :=
  match s with
  | EmptyString => ""
  | String c s' =>
      String c
        (if (Nat.ltb 0 (String.length s') && Nat.eqb (Nat.modulo (String.length s') 3) 0)%bool
         then String "," (commas s') else commas s')
  end.

(** The digits of a non-negative magnitude scaled by [10^p]:
    integer part, optional grouping, then [p] decimals. *)
Definition digits (grouping : bool) (p : nat) (n : Z) : string :=
  let ds := zfill (S p) (decimal n) in
  let ip := String.substring 0 (String.length ds - p) ds in
  let fp := String.substring (String.length ds - p) p ds in
  ((if grouping then commas ip else ip)
   ++ match p with O => "" | S _ => "." ++ fp end)%string.

Definition sign_str (s : bool) : string := if s then "-" else "".

(** [format(x, ",.Pf")] when [grouping], [format(x, ".Pf")] otherwise. *)
Definition format_f (grouping : bool) (p : nat) (x : float) : string :=
  match Prim2SF x with
  | S754_nan => "nan"
  | S754_infinity s => (sign_str s ++ "inf")%string
  | S754_zero s => (sign_str s ++ digits grouping p 0)%string
  | S754_finite s m e => (sign_str s ++ digits grouping p (scaled p m e))%string
  end.

End PyFloat.

(** ** Budget calculator (main.py, lines 98-108) *)

(** The default arguments [0.5] and [0.2]; the second is the binary64
    number nearest to one fifth. *)
Definition default_essentials_pct : float := 0.5%float.
Definition default_savings_pct : float := 0x1.999999999999ap-3%float.

(** Lines 99-101: the three amounts. *)
Definition budget_amounts (income essentials_pct savings_pct : float)
  : float * float * float :=
  let essentials := (income * essentials_pct)%float in
  let savings := (income * savings_pct)%float in
  let discretionary := (income - essentials - savings)%float in
  (essentials, savings, discretionary).

Definition rupee : string := "₹".

Definition generate_budget_summary (income essentials_pct savings_pct : float) : string :=
  let '(essentials, savings, discretionary) :=
    budget_amounts income essentials_pct savings_pct in
  "Monthly Budget Summary:" ++ PyStr.backslash_n
  ++ "Total income: " ++ rupee ++ PyFloat.format_f true 2 income ++ PyStr.backslash_n
  ++ "Essentials (" ++ PyFloat.format_f false 0 (essentials_pct * 100)%float ++ "%): "
  ++ rupee ++ PyFloat.format_f true 2 essentials ++ PyStr.backslash_n
  ++ "Savings (" ++ PyFloat.format_f false 0 (savings_pct * 100)%float ++ "%): "
  ++ rupee ++ PyFloat.format_f true 2 savings ++ PyStr.backslash_n
  ++ "Discretionary: " ++ rupee ++ PyFloat.format_f true 2 discretionary ++ PyStr.backslash_n.


(** ** JSON values

    What [resp.json()] returns: [None], [bool], [int], [float], [str],
    [list] or [dict].  The program never computes with a JSON number, so a
    float is kept as the text [json.dumps] prints for it.  A [dict] is an
    association list read by its first matching key. *)

#[local] Set Warnings "-register-all".

Inductive json : Type :=
| JNull
| JBool (b : bool)
| JInt (n : Z)
| JFloat (text : string)
| JStr (s : string)
| JList (items : list json)
| JDict (fields : list (string * json)).

Fixpoint assoc (k : string) (kv : list (string * json)) : option json :=
  match kv with
  | [] => None
  | (k', v) :: kv' => if String.eqb k k' then Some v else assoc k kv'
  end.

(** [type(x).__name__] *)
Definition type_name (x : json) : string :=
  match x with
  | JNull => "NoneType"
  | JBool _ => "bool"
  | JInt _ => "int"
  | JFloat _ => "float"
  | JStr _ => "str"
  | JList _ => "list"
  | JDict _ => "dict"
  end.

(** [x == s] for a string [s]. *)
Definition eq_str (x : json) (s : string) : bool :=
  match x with
  | JStr t => String.eqb t s
  | _ => false
  end.

(** *** [json.dumps] with its default options *)

Module Dumps.

Local Open Scope N_scope.

Definition hex_digit (n : N) : ascii :=
  ascii_of_N (if n <? 10 then 48 + n else 87 + n).

(** [\uXXXX] with lower-case digits. *)
Definition u_escape (cp : N) : string :=
  String (ascii_of_N 92) (String "u"
    (String (hex_digit (cp / 4096 mod 16))
    (String (hex_digit (cp / 256 mod 16))
    (String (hex_digit (cp / 16 mod 16))
    (String (hex_digit (cp mod 16)) EmptyString))))).

(** A code point outside ASCII; above the basic plane, a surrogate pair. *)
Definition escape_code_point (cp : N) : string :=
  if cp <? 65536 then u_escape cp
  else (u_escape (55296 + (cp - 65536) / 1024)
        ++ u_escape (56320 + (cp - 65536) mod 1024))%string.

Definition backslash (c : string) : string := String (ascii_of_N 92) c.

Definition escape_ascii (b : N) : string :=
  if b =? 34 then backslash (String (ascii_of_N 34) EmptyString)
  else if b =? 92 then backslash (backslash EmptyString)
  else if b =? 10 then backslash "n"
  else if b =? 13 then backslash "r"
  else if b =? 9 then backslash "t"
  else if b =? 12 then backslash "f"
  else if b =? 8 then backslash "b"
  else if (b <? 32) || (b =? 127) then u_escape b
  else String (ascii_of_N b) EmptyString.

Definition cont (c : ascii) : N := N_of_ascii c mod 64.

(** The body of a string literal: the UTF-8 bytes are decoded to code
    points and everything outside printable ASCII is escaped. *)
Fixpoint escape (s : string) : string :=
  match s with
  | EmptyString => EmptyString
  | String c s1 =>
      let b := N_of_ascii c in
      if b <? 128 then (escape_ascii b ++ escape s1)%string
      else
        match s1 with
        | EmptyString => escape_code_point b
        | String c1 s2 =>
            if b <? 224 then
              (escape_code_point ((b mod 32) * 64 + cont c1) ++ escape s2)%string
            else
              match s2 with
              | EmptyString => escape_code_point b
              | String c2 s3 =>
                  if b <? 240 then
                    (escape_code_point (((b mod 16) * 64 + cont c1) * 64 + cont c2)
                     ++ escape s3)%string
                  else
                    match s3 with
                    | EmptyString => escape_code_point b
                    | String c3 s4 =>
                        (escape_code_point
                           ((((b mod 8) * 64 + cont c1) * 64 + cont c2) * 64 + cont c3)
                         ++ escape s4)%string
                    end
              end
        end
  end.

Definition quote (s : string) : string :=
  (String (ascii_of_N 34) (escape s) ++ String (ascii_of_N 34) EmptyString)%string.

Definition int_text (n : Z) : string :=
  DecimalString.NilEmpty.string_of_int (Z.to_int n).

Fixpoint dumps (x : json) : string :=
  match x with
  | JNull => "null"
  | JBool true => "true"
  | JBool false => "false"
  | JInt n => int_text n
  | JFloat t => t
  | JStr s => quote s
  | JList items =>
      ("[" ++ PyStr.join ", " (List.map dumps items) ++ "]")%string
  | JDict fields =>
      ("{" ++ PyStr.join ", "
                (List.map (fun kv => (quote (fst kv) ++ ": " ++ dumps (snd kv))%string) fields)
       ++ "}")%string
  end.

End Dumps.


(** ** Exceptions, results and the network *)

(** The exceptions that can occur inside the two clients.  The first seven
    are subclasses of Python's [Exception]; [KeyboardInterrupt] and
    [SystemExit] derive from [BaseException] only and can arrive while a
    call of [requests] is blocked. *)
Inductive exn : Type :=
| RequestException (msg : string)   (* connection error, timeout, ... *)
| HTTPError (msg : string)          (* [raise_for_status] *)
| JSONDecodeError (msg : string)    (* [resp.json()] *)
| TypeError (msg : string)
| KeyError (key : string)
| IndexError (msg : string)
| AttributeError (msg : string)
| KeyboardInterrupt
| SystemExit (code : string).

(** [str(e)] *)
Definition exn_str (e : exn) : string :=
  match e with
  | RequestException msg | HTTPError msg | JSONDecodeError msg
  | TypeError msg | IndexError msg | AttributeError msg => msg
  | KeyError key => "'" ++ key ++ "'"
  | KeyboardInterrupt => ""
  | SystemExit code => code
  end.

(** [isinstance(e, Exception)] *)
Definition is_exception (e : exn) : bool :=
  match e with
  | KeyboardInterrupt | SystemExit _ => false
  | _ => true
  end.

Inductive result (A : Type) : Type :=
| Ok (a : A)
| Raise (e : exn).
Arguments Ok {A} a.
Arguments Raise {A} e.

(** What a [requests.Response] offers to this program. *)
Inductive decoded : Type :=
| Invalid (msg : string)   (* the body is not JSON *)
| Valid (j : json).

Record response : Type := {
  status_code : Z;
  reason : string;
  url : string;
  body : decoded
}.

(** One outbound HTTP call of the program. *)
Inductive request : Type :=
| HFPost (url token prompt : string) (max_new_tokens : Z) (temperature : float)
| WatsonCreateSession (watson_url assistant_id apikey : string)
| WatsonMessage (watson_url assistant_id apikey : string) (session_id : json) (text : string)
| WatsonDeleteSession (watson_url assistant_id apikey : string) (session_id : json).

(** What the [requests] call does: raise, or hand back a response. *)
Inductive outcome : Type :=
| Fails (e : exn)
| Responds (r : response).

Definition network : Type := request -> outcome.

(** *** The monad of client code

    A computation reads the network, appends every request it issues to a
    log and ends in a value or a raised exception. *)

Definition M (A : Type) : Type := network -> list request -> list request * result A.

Definition ret {A} (a : A) : M A := fun _ log => (log, Ok a).

Definition raise {A} (e : exn) : M A := fun _ log => (log, Raise e).

Definition bind {A B} (m : M A) (k : A -> M B) : M B :=
  fun net log =>
    match m net log with
    | (log', Ok a) => k a net log'
    | (log', Raise e) => (log', Raise e)
    end.

(** [try: body except Exception as e: handler(e)] (lines 52 and 84): an
    exception that is no instance of [Exception] passes through. *)
Definition try_except {A} (body : M A) (handler : exn -> M A) : M A :=
  fun net log =>
    match body net log with
    | (log', Ok a) => (log', Ok a)
    | (log', Raise e) =>
        if is_exception e then handler e net log' else (log', Raise e)
    end.

(** [try: body except: handler] (line 77): the bare clause catches every
    exception, [KeyboardInterrupt] and [SystemExit] included. *)
Definition try_except_all {A} (body : M A) (handler : M A) : M A :=
  fun net log =>
    match body net log with
    | (log', Ok a) => (log', Ok a)
    | (log', Raise _) => handler net log'
    end.

(** [requests.post(...)] and [requests.delete(...)]: one network call. *)
Definition send (rq : request) : M response :=
  fun net log =>
    match net rq with
    | Fails e => ((log ++ [rq])%list, Raise e)
    | Responds r => ((log ++ [rq])%list, Ok r)
    end.

Definition run {A} (m : M A) (net : network) : list request * result A := m net [].

Declare Scope monad_scope.
Delimit Scope monad_scope with monad.
Notation "x <- c ;; k" := (bind c (fun x => k))
  (at level 61, c at next level, right associativity) : monad_scope.
Notation "c ;;; k" := (bind c (fun _ => k))
  (at level 61, right associativity) : monad_scope.
Local Open Scope monad_scope.

(** [resp.raise_for_status()] *)
Definition raise_for_status (r : response) : M unit :=
  let code := DecimalString.NilEmpty.string_of_int (Z.to_int (status_code r)) in
  if ((400 <=? status_code r) && (status_code r <? 500))%Z then
    raise (HTTPError (code ++ " Client Error: " ++ reason r ++ " for url: " ++ url r))
  else if ((500 <=? status_code r) && (status_code r <? 600))%Z then
    raise (HTTPError (code ++ " Server Error: " ++ reason r ++ " for url: " ++ url r))
  else ret tt.

(** [resp.json()] *)
Definition resp_json (r : response) : M json :=
  match body r with
  | Invalid msg => raise (JSONDecodeError msg)
  | Valid j => ret j
  end.

(** *** Python operators on decoded values *)

Module Py.

Definition isinstance_list (x : json) : bool :=
  match x with JList _ => true | _ => false end.

Definition isinstance_dict (x : json) : bool :=
  match x with JDict _ => true | _ => false end.

(** [len(x)] *)
Definition len (x : json) : M Z :=
  match x with
  | JList items => ret (Z.of_nat (List.length items))
  | JDict fields => ret (Z.of_nat (List.length fields))
  | JStr s => ret (Z.of_nat (String.length s))
  | _ => raise (TypeError ("object of type '" ++ type_name x ++ "' has no len()"))
  end.

(** [x[0]] *)
Definition index0 (x : json) : M json :=
  match x with
  | JList (y :: _) => ret y
  | JList [] => raise (IndexError "list index out of range")
  | JStr (String c _) => ret (JStr (String c EmptyString))
  | JStr EmptyString => raise (IndexError "string index out of range")
  | JDict fields => raise (KeyError "0")
  | _ => raise (TypeError ("'" ++ type_name x ++ "' object is not subscriptable"))
  end.

(** [a and b] where [b] is only evaluated when [a] holds. *)
Definition and_then (a : bool) (b : M bool) : M bool :=
  if a then b else ret false.

(** [key in x] for a string [key]. *)
Definition contains (key : string) (x : json) : M bool :=
  match x with
  | JDict fields => ret (match assoc key fields with Some _ => true | None => false end)
  | JList items => ret (List.existsb (fun y => eq_str y key) items)
  | JStr s => ret (PyStr.contains key s)
  | _ => raise (TypeError ("argument of type '" ++ type_name x ++ "' is not iterable"))
  end.

(** [x[key]] for a string [key]. *)
Definition getitem (x : json) (key : string) : M json :=
  match x with
  | JDict fields =>
      match assoc key fields with
      | Some v => ret v
      | None => raise (KeyError key)
      end
  | JStr _ => raise (TypeError "string indices must be integers, not 'str'")
  | JList _ => raise (TypeError "list indices must be integers or slices, not str")
  | _ => raise (TypeError ("'" ++ type_name x ++ "' object is not subscriptable"))
  end.

(** [x.get(key, default)] *)
Definition get (x : json) (key : string) (default : json) : M json :=
  match x with
  | JDict fields =>
      ret (match assoc key fields with Some v => v | None => default end)
  | _ => raise (AttributeError ("'" ++ type_name x ++ "' object has no attribute 'get'"))
  end.

Fixpoint chars (s : string) : list json :=
  match s with
  | EmptyString => []
  | String c s' => JStr (String c EmptyString) :: chars s'
  end.

(** The items a [for] loop over [x] visits.  A [dict] yields its keys and a
    [str] its characters. *)
Definition iter (x : json) : M (list json) :=
  match x with
  | JList items => ret items
  | JDict fields => ret (List.map (fun kv => JStr (fst kv)) fields)
  | JStr s => ret (chars s)
  | _ => raise (TypeError ("'" ++ type_name x ++ "' object is not iterable"))
  end.

(** The strings of a list all of whose items are [str]; otherwise the
    position and the item that is not. *)
Fixpoint strings (i : nat) (l : list json) : (nat * json) + list string :=
  match l with
  | [] => inr []
  | JStr s :: l' =>
      match strings (S i) l' with
      | inr ss => inr (s :: ss)
      | inl bad => inl bad
      end
  | x :: _ => inl (i, x)
  end.

(** [sep.join(l)] where the items of [l] may be of any type. *)
Definition join (sep : string) (l : list json) : M string :=
  match strings 0 l with
  | inr ss => ret (PyStr.join sep ss)
  | inl (i, x) =>
      raise (TypeError ("sequence item "
                        ++ DecimalString.NilEmpty.string_of_uint (Nat.to_uint i)
                        ++ ": expected str instance, " ++ type_name x ++ " found"))
  end.

End Py.

(** ** Configuration (main.py, lines 23-27)

    [os.getenv] yields [None] or a string. *)

Record config : Type := {
  HUGGINGFACE_API_TOKEN : option string;
  GRANITE_MODEL : string;
  WATSON_APIKEY : option string;
  WATSON_URL : option string;
  WATSON_ASSISTANT_ID : option string
}.

(** Truth value of an optional string: [None] and [""] are false. *)
Definition truthy (v : option string) : bool :=
  match v with
  | Some s => negb (String.eqb s "")
  | None => false
  end.

(** An optional string inside an f-string. *)
Definition fstr (v : option string) : string :=
  match v with
  | Some s => s
  | None => "None"
  end.

(** ** Hugging Face client (main.py, lines 30-53) *)

Definition hf_token_not_set : string := "ERROR: HUGGINGFACE API token not set.".
Definition hf_exception_prefix : string := "Exception calling Hugging Face Inference API: ".

Definition hf_extract (data : json) : M json :=
  c1 <- Py.and_then (Py.isinstance_list data)
          (n <- Py.len data;;
           Py.and_then (0 <? n)%Z
             (d0 <- Py.index0 data;; Py.contains "generated_text" d0));;
  if c1 then d0 <- Py.index0 data;; Py.getitem d0 "generated_text"
  else
    c2 <- Py.and_then (Py.isinstance_dict data) (Py.contains "generated_text" data);;
    if c2 then Py.getitem data "generated_text"
    else ret (JStr (Dumps.dumps data)).

Definition hf_request (cfg : config) (prompt : string) (model : option string)
    (max_tokens : Z) (temperature : float) : request :=
  let model := if truthy model then fstr model else GRANITE_MODEL cfg in
  HFPost ("https://api-inference.huggingface.co/models/" ++ model)
         (fstr (HUGGINGFACE_API_TOKEN cfg)) prompt max_tokens temperature.

Definition call_hf_inference (cfg : config) (prompt : string) (model : option string)
    (max_tokens : Z) (temperature : float) : M json :=
  if negb (truthy (HUGGINGFACE_API_TOKEN cfg)) then ret (JStr hf_token_not_set)
  else
    try_except
      (resp <- send (hf_request cfg prompt model max_tokens temperature);;
       raise_for_status resp;;;
       data <- resp_json resp;;
       hf_extract data)
      (fun e => ret (JStr (hf_exception_prefix ++ exn_str e))).

(** ** Watson Assistant client (main.py, lines 56-85) *)

Definition watson_not_configured : string := "Watson not configured.".
Definition watson_exception_prefix : string := "Exception calling Watson Assistant: ".

(** The loop of lines 80-82, started with the list [texts] built so far. *)
Fixpoint collect_texts (items texts : list json) : M (list json) :=
  match items with
  | [] => ret texts
  | r :: rest =>
      rt <- Py.get r "response_type" JNull;;
      if eq_str rt "text" then
        t <- Py.get r "text" (JStr "");;
        collect_texts rest (texts ++ [t])%list
      else collect_texts rest texts
  end.

(** Lines 79-83: from the decoded message response to the returned string. *)
Definition watson_reply (out : json) : M string :=
  output <- Py.get out "output" (JDict []);;
  generic <- Py.get output "generic" (JList []);;
  items <- Py.iter generic;;
  texts <- collect_texts items [];;
  match texts with
  | [] => ret (Dumps.dumps out)
  | _ :: _ => Py.join PyStr.backslash_n texts
  end.

Section WatsonProtocol.

Variables base assistant apikey : string.

(** Create session (lines 62-66). *)
Definition watson_create_session : M json :=
  sess <- send (WatsonCreateSession base assistant apikey);;
  raise_for_status sess;;;
  created <- resp_json sess;;
  Py.get created "session_id" JNull.

(** Send message (lines 67-72). *)
Definition watson_send_message (session_id : json) (message : string) : M json :=
  resp <- send (WatsonMessage base assistant apikey session_id message);;
  raise_for_status resp;;;
  resp_json resp.

(** Tear down (lines 73-78): [try: requests.delete(...) except: pass]. *)
Definition watson_tear_down (session_id : json) : M unit :=
  try_except_all
    (send (WatsonDeleteSession base assistant apikey session_id);;; ret tt)
    (ret tt).

End WatsonProtocol.

Definition watson_configured (cfg : config) : bool :=
  truthy (WATSON_APIKEY cfg) && truthy (WATSON_URL cfg)
  && truthy (WATSON_ASSISTANT_ID cfg).

Definition call_watson_assistant (cfg : config) (message : string) : M string :=
  if negb (watson_configured cfg) then ret watson_not_configured
  else
    let apikey := fstr (WATSON_APIKEY cfg) in
    let base := fstr (WATSON_URL cfg) in
    let assistant := fstr (WATSON_ASSISTANT_ID cfg) in
    try_except
      (session_id <- watson_create_session base assistant apikey;;
       out <- watson_send_message base assistant apikey session_id message;;
       watson_tear_down base assistant apikey session_id;;;
       watson_reply out)
      (fun e => ret (watson_exception_prefix ++ exn_str e)).

(** ** The prompt of a request (main.py, lines 138-140) *)

Definition reference_budget_header : string :=
  PyStr.backslash_n ++ PyStr.backslash_n ++ "Reference budget (income info):"
  ++ PyStr.backslash_n.

Definition request_prompt (user_q persona : string) (income : float) : string :=
  let prompt := build_prompt user_q persona in
  if (0 <? income)%float
  then prompt ++ reference_budget_header
       ++ generate_budget_summary income default_essentials_pct default_savings_pct
  else prompt.

(** ** Sample configurations, networks and responses *)

Module Sample.

Definition configured : config := {|
  HUGGINGFACE_API_TOKEN := Some "hf_token";
  GRANITE_MODEL := "ibm-granite/granite-3.3-2b-instruct";
  WATSON_APIKEY := Some "key";
  WATSON_URL := Some "https://watson.example";
  WATSON_ASSISTANT_ID := Some "assistant"
|}.

(** Nothing set in the environment. *)
Definition unconfigured : config := {|
  HUGGINGFACE_API_TOKEN := None;
  GRANITE_MODEL := "ibm-granite/granite-3.3-2b-instruct";
  WATSON_APIKEY := None;
  WATSON_URL := None;
  WATSON_ASSISTANT_ID := None
|}.

(** The three Watson variables set to the empty string. *)
Definition watson_empty : config := {|
  HUGGINGFACE_API_TOKEN := Some "hf_token";
  GRANITE_MODEL := "ibm-granite/granite-3.3-2b-instruct";
  WATSON_APIKEY := Some "";
  WATSON_URL := Some "";
  WATSON_ASSISTANT_ID := Some ""
|}.

Definition ok (j : json) : outcome :=
  Responds {| status_code := 200; reason := "OK"; url := ""; body := Valid j |}.

Definition timed_out : exn := RequestException "Read timed out.".

(** A network on which every call times out. *)
Definition down : network := fun _ => Fails timed_out.

(** A network that answers every call with the same JSON body. *)
Definition answering (j : json) : network := fun _ => ok j.

Definition text_entry (s : string) : json :=
  JDict [("response_type", JStr "text"); ("text", JStr s)].

(** A message response with two generic entries of type text. *)
Definition two_texts : json :=
  JDict [("output", JDict [("generic", JList [text_entry "Hello"; text_entry "World"])])].

Definition one_text : json :=
  JDict [("output", JDict [("generic", JList [text_entry "Hello"])])].

(** A Watson service that creates session ["s1"], answers the message with
    [reply] and treats the tear-down as [on_delete]. *)
Definition watson (reply : json) (on_delete : outcome) : network :=
  fun rq =>
    match rq with
    | WatsonCreateSession _ _ _ => ok (JDict [("session_id", JStr "s1")])
    | WatsonMessage _ _ _ _ _ => ok reply
    | WatsonDeleteSession _ _ _ _ => on_delete
    | HFPost _ _ _ _ _ => Fails timed_out
    end.

(** A Watson service that creates session ["s1"] and then stops answering. *)
Definition watson_lost : network :=
  fun rq =>
    match rq with
    | WatsonCreateSession _ _ _ => ok (JDict [("session_id", JStr "s1")])
    | _ => Fails timed_out
    end.

End Sample.

(** The network [net] with the outcome of every tear-down call replaced. *)
Definition with_tear_down (on_delete : outcome) (net : network) : network :=
  fun rq =>
    match rq with
    | WatsonDeleteSession _ _ _ _ => on_delete
    | _ => net rq
    end.

(** The text segments the loop of lines 80-82 keeps when every entry of
    [generic] is an object: the ["text"] field, or [""] when it is missing,
    of each entry whose ["response_type"] is ["text"]. *)
Definition kept_texts (entries : list (list (string * json))) : list json :=
  List.flat_map
    (fun fields =>
       match assoc "response_type" fields with
       | Some rt =>
           if eq_str rt "text"
           then [match assoc "text" fields with Some t => t | None => JStr "" end]
           else []
       | None => []
       end)
    entries.

(** ** The page (main.py, lines 115-154) *)

(** *** [str.strip]

    [s.strip()] removes leading and trailing white space, so it is empty
    exactly when every character of [s] is white space.  On the UTF-8 bytes
    the white-space characters of Python are: U+0009 to U+000D, U+001C to
    U+0020, U+0085, U+00A0, U+1680, U+2000 to U+200A, U+2028, U+2029, U+202F,
    U+205F and U+3000. *)

Module Strip.

Local Open Scope N_scope.

Definition ascii_space (b : N) : bool :=
  ((9 <=? b) && (b <=? 13)) || ((28 <=? b) && (b <=? 32)).

(** [not s.strip()] *)
Fixpoint is_blank (s : string) : bool :=
  match s with
  | EmptyString => true
  | String c s1 =>
      let b := N_of_ascii c in
      if b <? 128 then ascii_space b && is_blank s1
      else
        match s1 with
        | EmptyString => false
        | String c1 s2 =>
            let b1 := N_of_ascii c1 in
            if b =? 194 then ((b1 =? 133) || (b1 =? 160)) && is_blank s2
            else
              match s2 with
              | EmptyString => false
              | String c2 s3 =>
                  let b2 := N_of_ascii c2 in
                  if b =? 225 then (b1 =? 154) && (b2 =? 128) && is_blank s3
                  else if b =? 226 then
                    (((b1 =? 128)
                      && (((128 <=? b2) && (b2 <=? 138))
                          || (b2 =? 168) || (b2 =? 169) || (b2 =? 175)))
                     || ((b1 =? 129) && (b2 =? 159)))
                    && is_blank s3
                  else if b =? 227 then (b1 =? 128) && (b2 =? 128) && is_blank s3
                  else false
              end
        end
  end.

End Strip.

(** *** Side bar (lines 121-122) *)

Definition tick (b : bool) : string := if b then "✅" else "❌".

Definition hf_status_line (cfg : config) : string :=
  "Hugging Face token set: " ++ tick (truthy (HUGGINGFACE_API_TOKEN cfg)).

Definition watson_status_line (cfg : config) : string :=
  "Watson configured: "
  ++ tick (truthy (WATSON_APIKEY cfg) && truthy (WATSON_URL cfg)
           && truthy (WATSON_ASSISTANT_ID cfg)).

(** *** The "Get Answer" button (lines 133-154) *)

(** What the handler puts on the page, in order. *)
Inductive ui : Type :=
| Warning (s : string)
| Info (s : string)
| Subheader (s : string)
| Write (v : json)
| Markdown (s : string)
| Code (s : string).

Definition please_enter : string := "Please enter a question.".
Definition generating : string := "Generating response — this may take a few seconds.".
Definition granite_heading : string := "Granite (Hugging Face) response".
Definition watson_heading : string := "Watson Assistant response".

(** The arguments of line 143. *)
Definition ui_max_tokens : Z := 400.
Definition ui_temperature : float := 0x1.999999999999ap-3%float.

(** Lines 142-149: the call of the selected backend and what is shown. *)
Definition ask_backend (cfg : config) (backend prompt : string) : M (list ui) :=
  if PyStr.startswith "Granite" backend then
    hf_resp <- call_hf_inference cfg prompt (Some (GRANITE_MODEL cfg))
                 ui_max_tokens ui_temperature;;
    ret [Subheader granite_heading; Write hf_resp]
  else
    watson_resp <- call_watson_assistant cfg prompt;;
    ret [Subheader watson_heading; Write (JStr watson_resp)].

(** Lines 151-154: the local budget summary. *)
Definition local_budget (income : float) : list ui :=
  if (0 <? income)%float
  then [Markdown "---"; Subheader "Local budget summary";
        Code (generate_budget_summary income default_essentials_pct default_savings_pct)]
  else [].

(** When the client lets an exception through, the handler ends in it; the
    notice shown before the call is then not part of the result. *)
Definition get_answer (cfg : config) (backend persona user_q : string) (income : float)
  : M (list ui) :=
  if Strip.is_blank user_q then ret [Warning please_enter]
  else
    let prompt := request_prompt user_q persona income in
    answer <- ask_backend cfg backend prompt;;
    ret (Info generating :: answer ++ local_budget income)%list.

(** A request of the Hugging Face client, as opposed to the three Watson ones. *)
Definition is_hf_request (rq : request) : bool :=
  match rq with
  | HFPost _ _ _ _ _ => true
  | _ => false
  end.

(** ** Further sample data *)

Module Scenario.

Definition status (code : Z) (why : string) (b : decoded) : outcome :=
  Responds {| status_code := code; reason := why; url := "https://service.example"; body := b |}.

(** A service that rejects every call with the given status. *)
Definition rejecting (code : Z) (why : string) : network :=
  fun _ => status code why (Valid (JDict [("error", JStr why)])).

(** A Watson service whose session response is [created] and whose message
    response is [reply]. *)
Definition watson_session (created reply : outcome) : network :=
  fun rq =>
    match rq with
    | WatsonCreateSession _ _ _ => created
    | WatsonMessage _ _ _ _ _ => reply
    | _ => Sample.ok JNull
    end.

(** The entries of a reply that mixes text entries, one of them without
    ["text"], with an entry of another type. *)
Definition mixed_entries : list (list (string * json)) :=
  [[("response_type", JStr "text"); ("text", JStr "a")];
   [("response_type", JStr "image")];
   [("response_type", JStr "text")];
   [("response_type", JStr "text"); ("text", JStr "b")]].

Definition mixed_reply : json :=
  JDict [("output", JDict [("generic", JList (List.map JDict mixed_entries))])].

(** A reply whose ["output"] has no ["generic"]. *)
Definition no_generic : json :=
  JDict [("output", JDict [("intents", JList [])])].

End Scenario.

(** ** Exact values of floats

    The budget amounts are binary64 numbers; to state what they are worth,
    a finite float is read as the integer number of [2^-1074] it holds. *)

Section ExactValues.

Local Open Scope Z_scope.

Definition SFunits (f : spec_float) : Z :=
  match f with
  | S754_finite s m e => cond_Zopp s (Zpos m * 2 ^ (e + 1074))
  | _ => 0
  end.

Definition SFfinite (f : spec_float) : bool :=
  match f with
  | S754_finite _ _ _ | S754_zero _ => true
  | _ => false
  end.

Definition two53 : Z := 9007199254740992.

(** The least magnitude, in units, that rounds to an infinity:
    [2^1024 - 2^970] over [2^-1074]. *)
Definition overflow_units : Z := (2 * two53 - 1) * 2 ^ 2044.

Definition float_units (x : float) : Z := SFunits (Prim2SF x).
Definition float_finite (x : float) : bool := SFfinite (Prim2SF x).

(** The largest finite float, in units. *)
Definition max_units : Z := (two53 - 1) * 2 ^ 2045.

(** The test that the budget split of an income is sound: the three amounts
    and their sum are finite, no amount is negative and the sum is within
    [2^-50] of the income, relatively. *)
Definition budget_ok (income : float) : bool :=
  let '(essentials, savings, discretionary) :=
    budget_amounts income default_essentials_pct default_savings_pct in
  let total := (essentials + savings + discretionary)%float in
  float_finite essentials && float_finite savings && float_finite discretionary
  && float_finite total
  && (0 <=? float_units essentials) && (0 <=? float_units savings)
  && (0 <=? float_units discretionary)
  && (2 ^ 50 * Z.abs (float_units total - float_units income) <=? float_units income).

End ExactValues.

(** * Properties *)

(** ** String lemmas *)

Section StringFacts.

Lemma startswith_app (p s : string) : PyStr.startswith p (p ++ s) = true.
Proof.
  induction p as [|a p IH]; simpl; [reflexivity|].
  now rewrite Ascii.eqb_refl, IH.
Qed.

Lemma startswith_contains (n h : string) :
  PyStr.startswith n h = true -> PyStr.contains n h = true.
Proof. destruct h; simpl; intros ->; reflexivity. Qed.

Lemma contains_app_r (n pre post : string) :
  PyStr.contains n (pre ++ n ++ post) = true.
Proof.
  induction pre as [|a pre IH].
  - change ("" ++ n ++ post) with (n ++ post).
    apply startswith_contains, startswith_app.
  - simpl. rewrite IH. apply orb_true_r.
Qed.

Lemma endswith_app (p pre : string) : PyStr.endswith p (pre ++ p) = true.
Proof.
  induction pre as [|a pre IH]; simpl.
  - destruct p; simpl; [reflexivity|].
    now rewrite Ascii.eqb_refl, String.eqb_refl.
  - rewrite IH. apply orb_true_r.
Qed.

Lemma str_app_assoc (a b c : string) : (a ++ b) ++ c = a ++ b ++ c.
Proof. induction a; simpl; congruence. Qed.

End StringFacts.

(** ** PromptBuilder *)

Section Prompt.

Variables user_question persona : string.

(** The prompt is the question between a fixed head and a fixed tail. *)
Lemma prompt_template_split (tone depth : string) :
  prompt_template tone depth user_question
  = ("You are a helpful personal finance assistant. " ++ tone ++ " " ++ depth
     ++ PyStr.backslash_n ++ PyStr.backslash_n ++ "User question: ")
    ++ user_question ++ (PyStr.backslash_n ++ PyStr.backslash_n ++ "Output:").
Proof.
  unfold prompt_template. now rewrite !str_app_assoc.
Qed.

Lemma prompt_template_tail (tone depth : string) :
  prompt_template tone depth user_question
  = ("You are a helpful personal finance assistant. " ++ tone ++ " " ++ depth
     ++ PyStr.backslash_n ++ PyStr.backslash_n ++ "User question: "
     ++ user_question ++ PyStr.backslash_n ++ PyStr.backslash_n) ++ "Output:".
Proof.
  unfold prompt_template. now rewrite !str_app_assoc.
Qed.

Lemma build_prompt_template :
  build_prompt user_question persona
  = prompt_template (fst (persona_text persona)) (snd (persona_text persona))
      user_question.
Proof. unfold build_prompt. now destruct (persona_text persona). Qed.

Lemma build_prompt_contains_question :
  PyStr.contains user_question (build_prompt user_question persona) = true.
Proof.
  rewrite build_prompt_template, prompt_template_split. apply contains_app_r.
Qed.

Lemma build_prompt_ends_with_output :
  PyStr.endswith "Output:" (build_prompt user_question persona) = true.
Proof.
  rewrite build_prompt_template, prompt_template_tail. apply endswith_app.
Qed.

End Prompt.

(** C5. For each of the two personas and every non-empty question,
    [build_prompt] returns one string that contains the question text
    literally and ends with the marker ["Output:"]. *)
Theorem build_prompt_question_and_marker (user_question persona : string) :
  persona = "student" \/ persona = "professional" ->
  user_question <> "" ->
  PyStr.contains user_question (build_prompt user_question persona) = true
  /\ PyStr.endswith "Output:" (build_prompt user_question persona) = true.
Proof.
  intros _ _. split.
  - apply build_prompt_contains_question.
  - apply build_prompt_ends_with_output.
Qed.

Lemma build_prompt_question_and_marker_witness :
  PyStr.contains "How should I budget?"
    (build_prompt "How should I budget?" "professional") = true
  /\ PyStr.endswith "Output:"
       (build_prompt "How should I budget?" "professional") = true.
Proof.
  apply (build_prompt_question_and_marker "How should I budget?" "professional").
  - right. reflexivity.
  - discriminate.
Defined.

(** C10. Every persona other than ["student"], the empty string and any
    undocumented value included, gets the professional tone and depth: the
    argument is compared with one literal and never validated. *)
Theorem build_prompt_other_persona_is_professional (user_question persona : string) :
  persona <> "student" ->
  persona_text persona = (professional_tone, professional_depth)
  /\ build_prompt user_question persona
     = prompt_template professional_tone professional_depth user_question.
Proof.
  intros Hp. unfold build_prompt, persona_text.
  destruct (String.eqb_spec persona "student") as [E|_]; [contradiction|].
  split; reflexivity.
Qed.

Lemma build_prompt_other_persona_is_professional_witness :
  persona_text "" = (professional_tone, professional_depth)
  /\ build_prompt "q" "" = prompt_template professional_tone professional_depth "q".
Proof.
  apply (build_prompt_other_persona_is_professional "q" ""). discriminate.
Defined.

(** ** BudgetCalculator *)

(** C7. For income 30000 with fractions 0.5 and 0.2 the amounts are 15000,
    6000 and 9000, and the summary prints them as 15,000.00, 6,000.00 and
    9,000.00. *)
Theorem budget_summary_30000 :
  budget_amounts 30000 0.5 default_savings_pct = (15000, 6000, 9000)%float
  /\ generate_budget_summary 30000 0.5 default_savings_pct
     = "Monthly Budget Summary:" ++ PyStr.backslash_n
       ++ "Total income: " ++ rupee ++ "30,000.00" ++ PyStr.backslash_n
       ++ "Essentials (50%): " ++ rupee ++ "15,000.00" ++ PyStr.backslash_n
       ++ "Savings (20%): " ++ rupee ++ "6,000.00" ++ PyStr.backslash_n
       ++ "Discretionary: " ++ rupee ++ "9,000.00" ++ PyStr.backslash_n.
Proof. split; vm_compute; reflexivity. Qed.

(** ** The prompt of a request *)

Lemma float_zero_not_positive (x : float) :
  (x =? 0)%float = true -> (0 <? x)%float = false.
Proof.
  rewrite eqb_spec, ltb_spec.
  change (Prim2SF 0) with (S754_zero false).
  unfold SFeqb, SFltb.
  destruct (Prim2SF x) as [s|s| |s m e]; simpl; try reflexivity; try discriminate.
  - destruct s; discriminate.
  - destruct s; discriminate.
Qed.

(** C8. With income 0 the prompt sent is the built prompt alone, the
    reference budget is not appended; with income above 0 the budget summary
    follows the built prompt. *)
Theorem request_prompt_budget_section (user_q persona : string) (income : float) :
  ((income =? 0)%float = true ->
   request_prompt user_q persona income = build_prompt user_q persona)
  /\ ((0 <? income)%float = true ->
      request_prompt user_q persona income
      = build_prompt user_q persona ++ reference_budget_header
        ++ generate_budget_summary income default_essentials_pct default_savings_pct).
Proof.
  unfold request_prompt. split; intros H.
  - now rewrite (float_zero_not_positive _ H).
  - now rewrite H.
Qed.

Lemma request_prompt_budget_section_witness :
  request_prompt "q" "student" 0 = build_prompt "q" "student"
  /\ request_prompt "q" "student" 30000
     = build_prompt "q" "student" ++ reference_budget_header
       ++ generate_budget_summary 30000 default_essentials_pct default_savings_pct.
Proof.
  split.
  - apply (proj1 (request_prompt_budget_section "q" "student" 0)). reflexivity.
  - apply (proj2 (request_prompt_budget_section "q" "student" 30000)). reflexivity.
Defined.

(** ** Computations that do not touch the network *)

(** [pure_value m r]: [m] issues no request and ends in [r], whatever the
    network and the log are. *)
Definition pure_value {A} (m : M A) (r : result A) : Prop :=
  forall net log, m net log = (log, r).

Definition is_pure {A} (m : M A) : Prop := exists r, pure_value m r.

Section Purity.

Context {A B : Type}.

Lemma is_pure_ret (a : A) : is_pure (ret a).
Proof. exists (Ok a). intros net log. reflexivity. Qed.

Lemma is_pure_raise (e : exn) : is_pure (@raise A e).
Proof. exists (Raise e). intros net log. reflexivity. Qed.

Lemma is_pure_bind (m : M A) (k : A -> M B) :
  is_pure m -> (forall a, is_pure (k a)) -> is_pure (bind m k).
Proof.
  intros [[a|e] Hm] Hk.
  - destruct (Hk a) as [r Hr]. exists r. intros net log.
    unfold bind. now rewrite Hm, Hr.
  - exists (Raise e). intros net log. unfold bind. now rewrite Hm.
Qed.

Lemma pure_value_bind_ok (m : M A) (k : A -> M B) (a : A) (r : result B) :
  pure_value m (Ok a) -> pure_value (k a) r -> pure_value (bind m k) r.
Proof. intros Hm Hk net log. unfold bind. now rewrite Hm, Hk. Qed.

Lemma pure_value_bind_raise (m : M A) (k : A -> M B) (e : exn) :
  pure_value m (Raise e) -> pure_value (bind m k) (Raise e).
Proof. intros Hm net log. unfold bind. now rewrite Hm. Qed.

Lemma pure_value_run (m : M A) (r : result A) (net : network) :
  pure_value m r -> run m net = ([], r).
Proof. intros Hm. apply Hm. Qed.

End Purity.

Create HintDb pure.
#[local] Hint Resolve is_pure_ret is_pure_raise : pure.

Ltac pure_cases x := destruct x; simpl; auto with pure.

Lemma is_pure_len x : is_pure (Py.len x).
Proof. pure_cases x. Qed.

Lemma is_pure_index0 x : is_pure (Py.index0 x).
Proof.
  destruct x as [| | | |s|l|f]; simpl; auto with pure.
  - pure_cases s.
  - pure_cases l.
Qed.

Lemma is_pure_contains k x : is_pure (Py.contains k x).
Proof. pure_cases x. Qed.

Lemma is_pure_getitem x k : is_pure (Py.getitem x k).
Proof. destruct x as [| | | |s|l|f]; simpl; auto with pure. pure_cases (assoc k f). Qed.

Lemma is_pure_get x k d : is_pure (Py.get x k d).
Proof. pure_cases x. Qed.

Lemma is_pure_iter x : is_pure (Py.iter x).
Proof. pure_cases x. Qed.

Lemma is_pure_join sep l : is_pure (Py.join sep l).
Proof. unfold Py.join. destruct (Py.strings 0 l) as [[i x]|ss]; auto with pure. Qed.

Lemma is_pure_and_then a b : is_pure b -> is_pure (Py.and_then a b).
Proof. destruct a; simpl; auto with pure. Qed.

#[local] Hint Resolve is_pure_len is_pure_index0 is_pure_contains is_pure_getitem
  is_pure_get is_pure_iter is_pure_join is_pure_and_then : pure.

Ltac pure_step :=
  repeat first
    [ apply is_pure_bind; [ | intros ? ]
    | apply is_pure_and_then
    | solve [ auto with pure ]
    | match goal with |- is_pure (if ?c then _ else _) => destruct c end
    | match goal with |- is_pure (match ?c with _ => _ end) => destruct c end ].

Lemma is_pure_hf_extract data : is_pure (hf_extract data).
Proof. unfold hf_extract. pure_step. Qed.

Lemma is_pure_collect_texts items : forall texts, is_pure (collect_texts items texts).
Proof.
  induction items as [|r rest IH]; intros texts; simpl; [auto with pure|].
  apply is_pure_bind; [auto with pure | intros rt].
  destruct (eq_str rt "text"); [|apply IH].
  apply is_pure_bind; [auto with pure | intros t; apply IH].
Qed.

Lemma is_pure_watson_reply out : is_pure (watson_reply out).
Proof.
  unfold watson_reply.
  repeat (apply is_pure_bind; [auto using is_pure_collect_texts with pure | intros ?]).
  match goal with |- is_pure (match ?c with _ => _ end) => destruct c end;
    auto with pure.
Qed.

Lemma is_pure_raise_for_status r : is_pure (raise_for_status r).
Proof. unfold raise_for_status. pure_step. Qed.

Lemma is_pure_resp_json r : is_pure (resp_json r).
Proof. unfold resp_json. pure_step. Qed.

#[local] Hint Resolve is_pure_raise_for_status is_pure_resp_json
  is_pure_hf_extract is_pure_watson_reply : pure.

(** ** Code that raises instances of [Exception] only

    What the clients compute between two requests raises nothing but
    instances of [Exception].  A [KeyboardInterrupt] or a [SystemExit] is
    taken to arrive while a request is blocked, as an outcome [Fails] of the
    network, and nowhere else. *)

Definition checked {A} (m : M A) : Prop :=
  forall net log log' e, m net log = (log', Raise e) -> is_exception e = true.

Section Checked.

Context {A B : Type}.

Lemma checked_ret (a : A) : checked (ret a).
Proof. intros net log log' e H. discriminate H. Qed.

Lemma checked_raise (e : exn) : is_exception e = true -> checked (@raise A e).
Proof. intros He net log log' e' H. injection H as _ <-. exact He. Qed.

Lemma checked_bind (m : M A) (k : A -> M B) :
  checked m -> (forall a, checked (k a)) -> checked (bind m k).
Proof.
  intros Hm Hk net log log' e. unfold bind.
  destruct (m net log) as [l [a|e']] eqn:E.
  - apply Hk.
  - intros H. injection H as _ <-. exact (Hm _ _ _ _ E).
Qed.

End Checked.

Create HintDb checked.
#[local] Hint Resolve checked_ret : checked.
#[local] Hint Extern 1 (checked (raise _)) =>
  apply checked_raise; reflexivity : checked.

Ltac checked_cases x := destruct x; simpl; auto with checked.

Lemma checked_len x : checked (Py.len x).
Proof. checked_cases x. Qed.

Lemma checked_index0 x : checked (Py.index0 x).
Proof.
  destruct x as [| | | |s|l|f]; simpl; auto with checked.
  - checked_cases s.
  - checked_cases l.
Qed.

Lemma checked_contains k x : checked (Py.contains k x).
Proof. checked_cases x. Qed.

Lemma checked_getitem x k : checked (Py.getitem x k).
Proof.
  destruct x as [| | | |s|l|f]; simpl; auto with checked.
  checked_cases (assoc k f).
Qed.

Lemma checked_get x k d : checked (Py.get x k d).
Proof. checked_cases x. Qed.

Lemma checked_iter x : checked (Py.iter x).
Proof. checked_cases x. Qed.

Lemma checked_join sep l : checked (Py.join sep l).
Proof. unfold Py.join. destruct (Py.strings 0 l) as [[i x]|ss]; auto with checked. Qed.

Lemma checked_and_then a b : checked b -> checked (Py.and_then a b).
Proof. destruct a; simpl; auto with checked. Qed.

#[local] Hint Resolve checked_len checked_index0 checked_contains checked_getitem
  checked_get checked_iter checked_join checked_and_then : checked.

Ltac checked_step :=
  repeat first
    [ apply checked_bind; [ | intros ? ]
    | apply checked_and_then
    | solve [ auto with checked ]
    | match goal with |- checked (if ?c then _ else _) => destruct c end
    | match goal with |- checked (match ?c with _ => _ end) => destruct c end ].

Lemma checked_hf_extract data : checked (hf_extract data).
Proof. unfold hf_extract. checked_step. Qed.

Lemma checked_collect_texts items : forall texts, checked (collect_texts items texts).
Proof.
  induction items as [|r rest IH]; intros texts; simpl; [auto with checked|].
  apply checked_bind; [auto with checked | intros rt].
  destruct (eq_str rt "text"); [|apply IH].
  apply checked_bind; [auto with checked | intros t; apply IH].
Qed.

Lemma checked_watson_reply out : checked (watson_reply out).
Proof.
  unfold watson_reply.
  repeat (apply checked_bind; [auto using checked_collect_texts with checked | intros ?]).
  match goal with |- checked (match ?c with _ => _ end) => destruct c end;
    auto with checked.
Qed.

Lemma checked_raise_for_status r : checked (raise_for_status r).
Proof. unfold raise_for_status. checked_step. Qed.

Lemma checked_resp_json r : checked (resp_json r).
Proof. unfold resp_json. checked_step. Qed.

#[local] Hint Resolve checked_raise_for_status checked_resp_json
  checked_hf_extract checked_watson_reply : checked.

Lemma checked_run {A} (m : M A) (net : network) (e : exn) :
  checked m -> snd (run m net) = Raise e -> is_exception e = true.
Proof.
  intros Hm H. unfold run in H. destruct (m net []) as [l r] eqn:E.
  cbn [snd] in H. rewrite H in E. exact (Hm _ _ _ _ E).
Qed.

(** A request followed by checked code raises what is no instance of
    [Exception] exactly when the request itself raised it. *)
Lemma send_bind_passes {A} (rq : request) (k : response -> M A) (net : network)
    (e : exn) :
  (forall r, checked (k r)) -> is_exception e = false ->
  (snd (run (bind (send rq) k) net) = Raise e <-> net rq = Fails e).
Proof.
  intros Hk He. unfold run, bind, send.
  destruct (net rq) as [e'|r]; simpl.
  - split; intros H; now injection H as ->.
  - split; [|discriminate]. intros H.
    destruct (k r net [rq]) as [l v] eqn:E. cbn [snd] in H.
    rewrite H in E. pose proof (Hk r _ _ _ _ E). congruence.
Qed.

(** ** Computations that issue exactly one request *)

Definition one_call {A} (m : M A) (rq : request) : Prop :=
  forall net log, m net log = ((log ++ [rq])%list, snd (run m net)).

Lemma one_call_send_bind {A} (rq : request) (k : response -> M A) :
  (forall r, is_pure (k r)) -> one_call (bind (send rq) k) rq.
Proof.
  intros Hk net log. unfold run, bind, send.
  destruct (net rq) as [e|r]; [reflexivity|].
  destruct (Hk r) as [v Hv]. now rewrite !Hv.
Qed.


(** What a network failure of the only request does to the computation. *)
Lemma send_bind_fails {A} (rq : request) (k : response -> M A) net e :
  net rq = Fails e -> run (bind (send rq) k) net = ([rq], Raise e).
Proof. intros H. unfold run, bind, send. now rewrite H. Qed.

Section WatsonSteps.

Variables base assistant apikey : string.

Lemma one_call_create_session :
  one_call (watson_create_session base assistant apikey)
           (WatsonCreateSession base assistant apikey).
Proof. apply one_call_send_bind. intros r. pure_step. Qed.

Lemma one_call_send_message session_id message :
  one_call (watson_send_message base assistant apikey session_id message)
           (WatsonMessage base assistant apikey session_id message).
Proof. apply one_call_send_bind. intros r. pure_step. Qed.

(** The tear-down issues its request and always ends normally. *)
Lemma tear_down_always_ok session_id net log :
  watson_tear_down base assistant apikey session_id net log
  = ((log ++ [WatsonDeleteSession base assistant apikey session_id])%list, Ok tt).
Proof.
  unfold watson_tear_down, try_except_all, bind, send.
  now destruct (net _).
Qed.

End WatsonSteps.

(** The string a client hands back for the result of its [try] block. *)
Definition watson_answer (r : result string) : string :=
  match r with
  | Ok s => s
  | Raise e => watson_exception_prefix ++ exn_str e
  end.

Definition hf_answer (r : result json) : json :=
  match r with
  | Ok v => v
  | Raise e => JStr (hf_exception_prefix ++ exn_str e)
  end.

(** How a client ends for the result [r] of its [try] block: the handler of
    [except Exception] answers for an instance of [Exception], anything
    else leaves the client as it was raised. *)
Definition handled {A} (answer : result A -> A) (r : result A) : result A :=
  match r with
  | Ok _ => Ok (answer r)
  | Raise e => if is_exception e then Ok (answer r) else Raise e
  end.

Lemma handled_exception {A} (answer : result A -> A) (e : exn) :
  is_exception e = true -> handled answer (Raise e) = Ok (answer (Raise e)).
Proof. intros He. unfold handled. now rewrite He. Qed.

Lemma handled_passes {A} (answer : result A -> A) (e : exn) :
  is_exception e = false -> handled answer (Raise e) = Raise e.
Proof. intros He. unfold handled. now rewrite He. Qed.

(** Whatever leaves a client is no instance of [Exception], and it is what
    the [try] block raised. *)
Lemma handled_raise {A} (answer : result A -> A) (r : result A) (e : exn) :
  handled answer r = Raise e <-> r = Raise e /\ is_exception e = false.
Proof.
  unfold handled. destruct r as [a|e']; [split; [discriminate|intros [H _]; discriminate]|].
  destruct (is_exception e') eqn:He'; split.
  - discriminate.
  - intros [H He]. injection H as ->. congruence.
  - intros H. injection H as ->. now split.
  - intros [H _]. exact H.
Qed.

Section WatsonRun.

Variables (cfg : config) (message : string) (net : network).
Hypothesis configured : watson_configured cfg = true.

Let base := fstr (WATSON_URL cfg).
Let assistant := fstr (WATSON_ASSISTANT_ID cfg).
Let apikey := fstr (WATSON_APIKEY cfg).
Let create := WatsonCreateSession base assistant apikey.
Let send_msg sid := WatsonMessage base assistant apikey sid message.
Let delete sid := WatsonDeleteSession base assistant apikey sid.

(** The three ways a configured call can run. *)
Lemma call_watson_assistant_run :
  run (call_watson_assistant cfg message) net =
  match snd (run (watson_create_session base assistant apikey) net) with
  | Raise e => ([create], handled watson_answer (Raise e))
  | Ok sid =>
      match snd (run (watson_send_message base assistant apikey sid message) net) with
      | Raise e => ([create; send_msg sid], handled watson_answer (Raise e))
      | Ok out =>
          ([create; send_msg sid; delete sid],
           handled watson_answer (snd (run (watson_reply out) net)))
      end
  end.
Proof.
  unfold call_watson_assistant. rewrite configured. simpl negb. cbv iota.
  fold base assistant apikey.
  unfold run at 1. unfold try_except, bind.
  rewrite (one_call_create_session base assistant apikey net []).
  destruct (snd (run (watson_create_session base assistant apikey) net)) as [sid|e];
    [|unfold handled; now destruct (is_exception e)].
  rewrite (one_call_send_message base assistant apikey sid message net).
  destruct (snd (run (watson_send_message base assistant apikey sid message) net))
    as [out|e]; [|unfold handled; now destruct (is_exception e)].
  rewrite tear_down_always_ok.
  destruct (is_pure_watson_reply out) as [r Hr].
  rewrite Hr. unfold run. rewrite Hr. simpl.
  destruct r as [s|e]; [reflexivity|].
  unfold handled. now destruct (is_exception e).
Qed.

(** A failed session creation ends the call after its single request. *)
Lemma create_session_raises_run (e : exn) :
  snd (run (watson_create_session base assistant apikey) net) = Raise e ->
  run (call_watson_assistant cfg message) net
  = ([create], handled watson_answer (Raise e)).
Proof. intros He. rewrite call_watson_assistant_run, He. reflexivity. Qed.

Lemma create_session_fails_run (e : exn) :
  net create = Fails e ->
  run (call_watson_assistant cfg message) net
  = ([create], handled watson_answer (Raise e)).
Proof.
  intros He. apply create_session_raises_run.
  unfold watson_create_session. now rewrite (send_bind_fails _ _ net e He).
Qed.



End WatsonRun.

(** ** AssistantClient: what the reply is made of *)

Lemma collect_texts_objects (entries : list (list (string * json))) :
  forall texts,
    pure_value (collect_texts (List.map JDict entries) texts)
               (Ok (texts ++ kept_texts entries)%list).
Proof.
  induction entries as [|fields rest IH]; intros texts net log; simpl.
  - now rewrite List.app_nil_r.
  - unfold bind at 1. simpl.
    destruct (assoc "response_type" fields) as [rt|]; simpl.
    + destruct (eq_str rt "text"); simpl.
      * unfold bind at 1. simpl. rewrite IH. now rewrite <- List.app_assoc.
      * apply IH.
    + apply IH.
Qed.

Lemma strings_of_strs (ss : list string) (i : nat) :
  Py.strings i (List.map JStr ss) = inr ss.
Proof.
  revert i. induction ss as [|s ss IH]; intros i; simpl; [reflexivity|].
  now rewrite IH.
Qed.

(** For a response of the documented shape whose kept segments are strings,
    the reply is those segments, in response order, joined by the separator
    of line 83; with no segment it is the serialized response. *)
Lemma watson_reply_documented_shape
    (top output : list (string * json)) (entries : list (list (string * json)))
    (segments : list string) :
  assoc "output" top = Some (JDict output) ->
  assoc "generic" output = Some (JList (List.map JDict entries)) ->
  kept_texts entries = List.map JStr segments ->
  pure_value (watson_reply (JDict top))
    (Ok match segments with
        | [] => Dumps.dumps (JDict top)
        | _ :: _ => PyStr.join PyStr.backslash_n segments
        end).
Proof.
  intros Ho Hg Hk net log. unfold watson_reply.
  unfold bind at 1. simpl. rewrite Ho.
  unfold bind at 1. simpl. rewrite Hg.
  unfold bind at 1. simpl.
  unfold bind at 1. rewrite collect_texts_objects. simpl. rewrite Hk.
  destruct segments as [|s ss]; [reflexivity|].
  cbn [List.map]. unfold Py.join.
  change (JStr s :: List.map JStr ss) with (List.map JStr (s :: ss)).
  now rewrite strings_of_strs.
Qed.

(** C3. On a message response with the two text entries ["Hello"] and
    ["World"] the client returns them in order, joined by the two characters
    backslash and [n] of the literal on line 83, which is not the
    newline-joined string. *)
Theorem watson_two_texts_joined_by_backslash_n :
  run (call_watson_assistant Sample.configured "hi")
      (Sample.watson Sample.two_texts (Sample.ok JNull))
  = ([WatsonCreateSession "https://watson.example" "assistant" "key";
      WatsonMessage "https://watson.example" "assistant" "key" (JStr "s1") "hi";
      WatsonDeleteSession "https://watson.example" "assistant" "key" (JStr "s1")],
     Ok ("Hello" ++ PyStr.backslash_n ++ "World"))
  /\ "Hello" ++ PyStr.backslash_n ++ "World"
     <> PyStr.join PyStr.newline ["Hello"; "World"].
Proof. split; [reflexivity | discriminate]. Qed.

(** ** InferenceClient: the three outcomes of the extraction *)

Lemma hf_extract_array_object (fields : list (string * json)) (rest : list json) (v : json) :
  assoc "generated_text" fields = Some v ->
  pure_value (hf_extract (JList (JDict fields :: rest))) (Ok v).
Proof.
  intros H net log. unfold hf_extract, bind; simpl. now rewrite H.
Qed.

Lemma hf_extract_object (fields : list (string * json)) (v : json) :
  assoc "generated_text" fields = Some v ->
  pure_value (hf_extract (JDict fields)) (Ok v).
Proof.
  intros H net log. unfold hf_extract, bind; simpl. now rewrite H.
Qed.

(** Bodies on which the fallback of line 51 is reached. *)
Inductive falls_back : json -> Prop :=
| fb_null : falls_back JNull
| fb_bool b : falls_back (JBool b)
| fb_int n : falls_back (JInt n)
| fb_float t : falls_back (JFloat t)
| fb_str s : falls_back (JStr s)
| fb_empty : falls_back (JList [])
| fb_array_object fields rest :
    assoc "generated_text" fields = None -> falls_back (JList (JDict fields :: rest))
| fb_array_array items rest :
    List.existsb (fun y => eq_str y "generated_text") items = false ->
    falls_back (JList (JList items :: rest))
| fb_array_str s rest :
    PyStr.contains "generated_text" s = false -> falls_back (JList (JStr s :: rest))
| fb_object fields :
    assoc "generated_text" fields = None -> falls_back (JDict fields).

Lemma hf_extract_fallback (data : json) :
  falls_back data -> pure_value (hf_extract data) (Ok (JStr (Dumps.dumps data))).
Proof.
  intros H net log. destruct H; unfold hf_extract, bind; simpl;
    try match goal with E : _ = _ |- _ => rewrite E end; reflexivity.
Qed.

(** C2. A successful response whose body is the array [[1]] matches neither
    documented shape, yet the client does not return the serialized body
    ["[1]"]: the membership test on the number raises and the handler's text
    is returned. *)
Theorem hf_array_of_number_not_serialized :
  run (call_hf_inference Sample.configured "p" None 400 default_savings_pct)
      (Sample.answering (JList [JInt 1]))
  = ([HFPost "https://api-inference.huggingface.co/models/ibm-granite/granite-3.3-2b-instruct"
             "hf_token" "p" 400 default_savings_pct],
     Ok (JStr (hf_exception_prefix ++ "argument of type 'int' is not iterable")))
  /\ Dumps.dumps (JList [JInt 1]) = "[1]"
  /\ JStr (hf_exception_prefix ++ "argument of type 'int' is not iterable")
     <> JStr (Dumps.dumps (JList [JInt 1])).
Proof. split; [reflexivity | split; [reflexivity | discriminate]]. Qed.

(** ** InferenceClient: how a call with a credential runs *)

Section HFRun.

Variables (cfg : config) (prompt : string) (model : option string)
          (max_tokens : Z) (temperature : float) (net : network).
Hypothesis token_set : truthy (HUGGINGFACE_API_TOKEN cfg) = true.

Let rq := hf_request cfg prompt model max_tokens temperature.

Lemma call_hf_inference_run :
  run (call_hf_inference cfg prompt model max_tokens temperature) net
  = ([rq],
     handled hf_answer
       match net rq with
       | Fails e => Raise e
       | Responds r =>
           snd (run (raise_for_status r;;; data <- resp_json r;; hf_extract data) net)
       end).
Proof.
  unfold call_hf_inference. rewrite token_set. simpl negb. cbv iota.
  fold rq. unfold run at 1. unfold try_except. unfold bind at 1. unfold send.
  destruct (net rq) as [e|r]; [unfold handled; now destruct (is_exception e)|].
  assert (P : is_pure (raise_for_status r;;; data <- resp_json r;; hf_extract data))
    by pure_step.
  destruct P as [v Hv]. unfold run. rewrite !Hv. simpl.
  destruct v as [a|e]; [reflexivity|].
  unfold handled. now destruct (is_exception e).
Qed.

End HFRun.

Lemma send_bind_ext {A} (rq : request) (k : response -> M A) (net net' : network) :
  (forall r, is_pure (k r)) -> net rq = net' rq ->
  snd (run (bind (send rq) k) net) = snd (run (bind (send rq) k) net').
Proof.
  intros Hk E. unfold run, bind, send. rewrite <- E.
  destruct (net rq) as [e|r]; [reflexivity|].
  destruct (Hk r) as [v Hv]. now rewrite !Hv.
Qed.

Lemma exception_text_prefix_hf (e : exn) :
  PyStr.startswith "Exception calling" (hf_exception_prefix ++ exn_str e) = true.
Proof. reflexivity. Qed.

Lemma exception_text_prefix_watson (e : exn) :
  PyStr.startswith "Exception calling" (watson_exception_prefix ++ exn_str e) = true.
Proof. reflexivity. Qed.

(** ** Missing configuration *)

(** C4. Without a Hugging Face credential [call_hf_inference] returns a
    string containing ["token not set"] and issues no request; when any of
    the three Watson values is absent or empty, all three empty included,
    [call_watson_assistant] returns ["Watson not configured."] and issues no
    request. *)
Theorem missing_configuration_no_network (cfg : config) (net : network) :
  (truthy (HUGGINGFACE_API_TOKEN cfg) = false ->
   forall prompt model max_tokens temperature,
     run (call_hf_inference cfg prompt model max_tokens temperature) net
     = ([], Ok (JStr hf_token_not_set))
     /\ PyStr.contains "token not set" hf_token_not_set = true)
  /\ (truthy (WATSON_APIKEY cfg) = false \/ truthy (WATSON_URL cfg) = false
      \/ truthy (WATSON_ASSISTANT_ID cfg) = false ->
      forall message,
        run (call_watson_assistant cfg message) net = ([], Ok "Watson not configured.")).
Proof.
  split.
  - intros H prompt model max_tokens temperature. split; [|reflexivity].
    unfold call_hf_inference. now rewrite H.
  - intros H message. unfold call_watson_assistant, watson_configured.
    destruct H as [H|[H|H]]; rewrite H; rewrite ?andb_false_r; reflexivity.
Qed.

Lemma missing_configuration_no_network_witness :
  (run (call_hf_inference Sample.unconfigured "p" None 400 0.5) Sample.down
   = ([], Ok (JStr hf_token_not_set))
   /\ PyStr.contains "token not set" hf_token_not_set = true)
  /\ run (call_watson_assistant Sample.watson_empty "hi") Sample.down
     = ([], Ok "Watson not configured.").
Proof.
  split.
  - apply (proj1 (missing_configuration_no_network Sample.unconfigured Sample.down)).
    reflexivity.
  - apply (proj2 (missing_configuration_no_network Sample.watson_empty Sample.down)).
    left. reflexivity.
Defined.

(** ** The session protocol *)



(** ** Exceptions at the client boundary *)

Lemma create_session_tear_down_irrelevant base assistant apikey on_delete net :
  snd (run (watson_create_session base assistant apikey) (with_tear_down on_delete net))
  = snd (run (watson_create_session base assistant apikey) net).
Proof.
  unfold watson_create_session. apply send_bind_ext; [|reflexivity].
  intros r. pure_step.
Qed.

Lemma send_message_tear_down_irrelevant base assistant apikey sid message on_delete net :
  snd (run (watson_send_message base assistant apikey sid message)
           (with_tear_down on_delete net))
  = snd (run (watson_send_message base assistant apikey sid message) net).
Proof.
  unfold watson_send_message. apply send_bind_ext; [|reflexivity].
  intros r. pure_step.
Qed.

Lemma watson_reply_network_irrelevant out net net' :
  snd (run (watson_reply out) net) = snd (run (watson_reply out) net').
Proof.
  destruct (is_pure_watson_reply out) as [r Hr]. unfold run. now rewrite !Hr.
Qed.

(** The claim C1 as stated fails on the tear-down call: the DELETE request
    raises, yet the client returns the reply text ["Hello"], which does not
    start with ["Exception calling"]. *)
Lemma tear_down_exception_not_reported :
  Sample.watson Sample.one_text (Fails Sample.timed_out)
    (WatsonDeleteSession "https://watson.example" "assistant" "key" (JStr "s1"))
  = Fails Sample.timed_out
  /\ run (call_watson_assistant Sample.configured "hi")
         (Sample.watson Sample.one_text (Fails Sample.timed_out))
     = ([WatsonCreateSession "https://watson.example" "assistant" "key";
         WatsonMessage "https://watson.example" "assistant" "key" (JStr "s1") "hi";
         WatsonDeleteSession "https://watson.example" "assistant" "key" (JStr "s1")],
        Ok "Hello")
  /\ PyStr.startswith "Exception calling" "Hello" = false.
Proof. split; [reflexivity | split; reflexivity]. Qed.

(** A [KeyboardInterrupt] that arrives while the Hugging Face POST is
    blocked is not turned into text: [except Exception] does not catch it
    and it leaves the client. *)
Lemma keyboard_interrupt_leaves_hf_client :
  run (call_hf_inference Sample.configured "p" None 400 0.5)
      (fun _ => Fails KeyboardInterrupt)
  = ([HFPost "https://api-inference.huggingface.co/models/ibm-granite/granite-3.3-2b-instruct"
             "hf_token" "p" 400 0.5],
     Raise KeyboardInterrupt).
Proof. reflexivity. Qed.

(** When the Hugging Face client ends in an exception: exactly when its
    POST raised one that is no instance of [Exception]. *)
Lemma call_hf_inference_raises (cfg : config) (prompt : string) (model : option string)
    (max_tokens : Z) (temperature : float) (net : network) (e : exn) :
  snd (run (call_hf_inference cfg prompt model max_tokens temperature) net) = Raise e
  <-> truthy (HUGGINGFACE_API_TOKEN cfg) = true
      /\ net (hf_request cfg prompt model max_tokens temperature) = Fails e
      /\ is_exception e = false.
Proof.
  destruct (truthy (HUGGINGFACE_API_TOKEN cfg)) eqn:Htok.
  - rewrite call_hf_inference_run by exact Htok. cbn [snd].
    rewrite handled_raise.
    destruct (net (hf_request cfg prompt model max_tokens temperature)) as [e'|r].
    + split.
      * intros [H He]. injection H as ->. auto.
      * intros (_ & H & He). injection H as ->. auto.
    + split.
      * intros [H He]. apply checked_run in H; [congruence | checked_step].
      * intros (_ & H & _). discriminate H.
  - unfold call_hf_inference. rewrite Htok. cbn.
    split; [discriminate | intros [H _]; discriminate H].
Qed.

(** When the Watson client ends in an exception: exactly when its
    session-creation call or its message call raised one that is no
    instance of [Exception]. *)
Lemma call_watson_assistant_raises (cfg : config) (message : string) (net : network)
    (e : exn) :
  let base := fstr (WATSON_URL cfg) in
  let assistant := fstr (WATSON_ASSISTANT_ID cfg) in
  let apikey := fstr (WATSON_APIKEY cfg) in
  snd (run (call_watson_assistant cfg message) net) = Raise e
  <-> watson_configured cfg = true
      /\ is_exception e = false
      /\ (net (WatsonCreateSession base assistant apikey) = Fails e
          \/ exists sid,
               snd (run (watson_create_session base assistant apikey) net) = Ok sid
               /\ net (WatsonMessage base assistant apikey sid message) = Fails e).
Proof.
  intros base assistant apikey.
  assert (Hc : forall e', is_exception e' = false ->
            (snd (run (watson_create_session base assistant apikey) net) = Raise e'
             <-> net (WatsonCreateSession base assistant apikey) = Fails e')).
  { intros e' He'. unfold watson_create_session. apply send_bind_passes; [|exact He'].
    intros r. checked_step. }
  assert (Hm : forall sid e', is_exception e' = false ->
            (snd (run (watson_send_message base assistant apikey sid message) net) = Raise e'
             <-> net (WatsonMessage base assistant apikey sid message) = Fails e')).
  { intros sid e' He'. unfold watson_send_message. apply send_bind_passes; [|exact He'].
    intros r. checked_step. }
  destruct (watson_configured cfg) eqn:Hcfg.
  - rewrite (call_watson_assistant_run cfg message net Hcfg).
    fold base assistant apikey.
    destruct (snd (run (watson_create_session base assistant apikey) net))
      as [sid|e1] eqn:E1.
    + destruct (snd (run (watson_send_message base assistant apikey sid message) net))
        as [out|e2] eqn:E2; cbn [snd]; rewrite handled_raise.
      * split.
        -- intros [H He]. apply checked_run in H; [congruence | apply checked_watson_reply].
        -- intros (_ & He & [H | (sid' & Hsid & H)]).
           ++ apply (Hc e He) in H. discriminate H.
           ++ injection Hsid as <-. apply (Hm sid e He) in H. congruence.
      * split.
        -- intros [H He]. injection H as ->.
           split; [reflexivity | split; [exact He|]].
           right. exists sid. split; [reflexivity|]. now apply (Hm sid e He).
        -- intros (_ & He & [H | (sid' & Hsid & H)]).
           ++ apply (Hc e He) in H. discriminate H.
           ++ injection Hsid as <-. apply (Hm sid e He) in H.
              split; [congruence | exact He].
    + cbn [snd]. rewrite handled_raise. split.
      * intros [H He]. injection H as ->.
        split; [reflexivity | split; [exact He|]]. left. now apply (Hc e He).
      * intros (_ & He & [H | (sid' & Hsid & H)]).
        -- apply (Hc e He) in H. split; [congruence | exact He].
        -- discriminate Hsid.
  - unfold call_watson_assistant. rewrite Hcfg. cbn.
    split; [discriminate | intros [H _]; discriminate H].
Qed.

(** C1, amended. An instance of [Exception] raised by the Hugging Face POST,
    by the Watson session-creation call or by the Watson message call makes
    the client return a string that starts with ["Exception calling"]
    instead of propagating it.  An exception raised by the Watson tear-down
    call, of whatever class, is swallowed and leaves the returned value as
    it is without it.  A client ends in an exception exactly when one of
    the first three calls raises one that is no instance of [Exception]
    ([KeyboardInterrupt], [SystemExit]): that one passes through. *)
Theorem network_exceptions_become_text (cfg : config) (net : network) :
  (forall prompt model max_tokens temperature e,
      truthy (HUGGINGFACE_API_TOKEN cfg) = true ->
      net (hf_request cfg prompt model max_tokens temperature) = Fails e ->
      is_exception e = true ->
      snd (run (call_hf_inference cfg prompt model max_tokens temperature) net)
      = Ok (JStr (hf_exception_prefix ++ exn_str e))
      /\ PyStr.startswith "Exception calling" (hf_exception_prefix ++ exn_str e) = true)
  /\ (forall message e,
         watson_configured cfg = true ->
         net (WatsonCreateSession (fstr (WATSON_URL cfg)) (fstr (WATSON_ASSISTANT_ID cfg))
                (fstr (WATSON_APIKEY cfg))) = Fails e ->
         is_exception e = true ->
         snd (run (call_watson_assistant cfg message) net)
         = Ok (watson_exception_prefix ++ exn_str e)
         /\ PyStr.startswith "Exception calling" (watson_exception_prefix ++ exn_str e) = true)
  /\ (forall message sid e,
         watson_configured cfg = true ->
         snd (run (watson_create_session (fstr (WATSON_URL cfg))
                     (fstr (WATSON_ASSISTANT_ID cfg)) (fstr (WATSON_APIKEY cfg))) net)
         = Ok sid ->
         net (WatsonMessage (fstr (WATSON_URL cfg)) (fstr (WATSON_ASSISTANT_ID cfg))
                (fstr (WATSON_APIKEY cfg)) sid message) = Fails e ->
         is_exception e = true ->
         snd (run (call_watson_assistant cfg message) net)
         = Ok (watson_exception_prefix ++ exn_str e)
         /\ PyStr.startswith "Exception calling" (watson_exception_prefix ++ exn_str e) = true)
  /\ (forall message on_delete,
         snd (run (call_watson_assistant cfg message) (with_tear_down on_delete net))
         = snd (run (call_watson_assistant cfg message) net))
  /\ (forall prompt model max_tokens temperature e,
         snd (run (call_hf_inference cfg prompt model max_tokens temperature) net) = Raise e
         <-> truthy (HUGGINGFACE_API_TOKEN cfg) = true
             /\ net (hf_request cfg prompt model max_tokens temperature) = Fails e
             /\ is_exception e = false)
  /\ (forall message e,
         snd (run (call_watson_assistant cfg message) net) = Raise e
         <-> watson_configured cfg = true
             /\ is_exception e = false
             /\ (net (WatsonCreateSession (fstr (WATSON_URL cfg))
                        (fstr (WATSON_ASSISTANT_ID cfg)) (fstr (WATSON_APIKEY cfg)))
                 = Fails e
                 \/ exists sid,
                      snd (run (watson_create_session (fstr (WATSON_URL cfg))
                                  (fstr (WATSON_ASSISTANT_ID cfg))
                                  (fstr (WATSON_APIKEY cfg))) net) = Ok sid
                      /\ net (WatsonMessage (fstr (WATSON_URL cfg))
                                (fstr (WATSON_ASSISTANT_ID cfg))
                                (fstr (WATSON_APIKEY cfg)) sid message) = Fails e)).
Proof.
  repeat apply conj.
  - intros prompt model max_tokens temperature e Htok He Hexc.
    rewrite call_hf_inference_run by exact Htok. rewrite He.
    rewrite handled_exception by exact Hexc.
    split; reflexivity.
  - intros message e Hcfg He Hexc.
    rewrite (create_session_fails_run cfg message net Hcfg e He).
    rewrite handled_exception by exact Hexc.
    split; reflexivity.
  - intros message sid e Hcfg Hsid He Hexc.
    rewrite (call_watson_assistant_run cfg message net Hcfg), Hsid.
    unfold watson_send_message. rewrite (send_bind_fails _ _ net e He).
    cbn [snd]. rewrite handled_exception by exact Hexc.
    split; reflexivity.
  - intros message on_delete.
    destruct (watson_configured cfg) eqn:Hcfg.
    + rewrite !(call_watson_assistant_run cfg message _ Hcfg).
      rewrite create_session_tear_down_irrelevant.
      destruct (snd (run (watson_create_session _ _ _) net)) as [sid|e]; [|reflexivity].
      rewrite send_message_tear_down_irrelevant.
      destruct (snd (run (watson_send_message _ _ _ sid message) net)) as [out|e];
        [|reflexivity].
      simpl. now rewrite (watson_reply_network_irrelevant out _ net).
    + unfold call_watson_assistant. rewrite Hcfg. reflexivity.
  - intros prompt model max_tokens temperature e. apply call_hf_inference_raises.
  - intros message e. apply (call_watson_assistant_raises cfg message net e).
Qed.

Lemma network_exceptions_become_text_witness :
  snd (run (call_hf_inference Sample.configured "p" None 400 0.5) Sample.down)
  = Ok (JStr (hf_exception_prefix ++ "Read timed out."))
  /\ snd (run (call_watson_assistant Sample.configured "hi") Sample.down)
     = Ok (watson_exception_prefix ++ "Read timed out.")
  /\ snd (run (call_watson_assistant Sample.configured "hi") Sample.watson_lost)
     = Ok (watson_exception_prefix ++ "Read timed out.").
Proof.
  split; [|split].
  - apply (proj1 (network_exceptions_become_text Sample.configured Sample.down)
             "p" None 400%Z 0.5%float Sample.timed_out); reflexivity.
  - apply (proj1 (proj2 (network_exceptions_become_text Sample.configured Sample.down))
             "hi" Sample.timed_out); reflexivity.
  - apply (proj1 (proj2 (proj2
             (network_exceptions_become_text Sample.configured Sample.watson_lost)))
             "hi" (JStr "s1") Sample.timed_out); reflexivity.
Defined.

(** * Further properties of the code *)

(** ** Status check and decoding of a response *)

Definition error_status (r : response) : Prop :=
  (400 <= status_code r < 600)%Z.

Lemma raise_for_status_passes (r : response) :
  ~ error_status r -> pure_value (raise_for_status r) (Ok tt).
Proof.
  unfold error_status, raise_for_status. intros H net log.
  destruct (400 <=? status_code r)%Z eqn:E1, (status_code r <? 500)%Z eqn:E2,
           (500 <=? status_code r)%Z eqn:E3, (status_code r <? 600)%Z eqn:E4;
    simpl; try reflexivity; exfalso; lia.
Qed.

Lemma raise_for_status_rejects (r : response) :
  error_status r ->
  exists msg,
    pure_value (raise_for_status r) (Raise (HTTPError msg))
    /\ PyStr.startswith
         (DecimalString.NilEmpty.string_of_int (Z.to_int (status_code r))) msg = true.
Proof.
  unfold error_status, raise_for_status. intros H.
  destruct ((400 <=? status_code r) && (status_code r <? 500))%Z eqn:E1.
  - eexists. split; [intros net log; reflexivity | apply startswith_app].
  - destruct ((500 <=? status_code r) && (status_code r <? 600))%Z eqn:E2.
    + eexists. split; [intros net log; reflexivity | apply startswith_app].
    + exfalso. rewrite andb_false_iff in E1, E2. lia.
Qed.

(** The [try] block of a client after its request was answered by [r]. *)
Lemma decoded_value {A} (r : response) (k : json -> M A) (data : json) (v : result A)
    (net : network) :
  ~ error_status r -> body r = Valid data -> pure_value (k data) v ->
  snd (run (raise_for_status r;;; data <- resp_json r;; k data) net) = v.
Proof.
  intros Hs Hb Hk. unfold run, bind.
  rewrite (raise_for_status_passes r Hs). unfold resp_json. rewrite Hb.
  unfold ret at 1. now rewrite Hk.
Qed.

Lemma rejected_value {A} (r : response) (k : json -> M A) (msg : string) (net : network) :
  pure_value (raise_for_status r) (Raise (HTTPError msg)) ->
  snd (run (raise_for_status r;;; data <- resp_json r;; k data) net)
  = Raise (HTTPError msg).
Proof. intros H. unfold run, bind. now rewrite H. Qed.

Lemma undecodable_value {A} (r : response) (k : json -> M A) (msg : string) (net : network) :
  ~ error_status r -> body r = Invalid msg ->
  snd (run (raise_for_status r;;; data <- resp_json r;; k data) net)
  = Raise (JSONDecodeError msg).
Proof.
  intros Hs Hb. unfold run, bind.
  rewrite (raise_for_status_passes r Hs). unfold resp_json. now rewrite Hb.
Qed.

(** ** InferenceClient *)

Section HFResponses.

Variables (cfg : config) (prompt : string) (model : option string)
          (max_tokens : Z) (temperature : float) (net : network) (r : response).
Hypothesis token_set : truthy (HUGGINGFACE_API_TOKEN cfg) = true.
Hypothesis answered :
  net (hf_request cfg prompt model max_tokens temperature) = Responds r.

Lemma hf_run_answered :
  run (call_hf_inference cfg prompt model max_tokens temperature) net
  = ([hf_request cfg prompt model max_tokens temperature],
     handled hf_answer
       (snd (run (raise_for_status r;;; data <- resp_json r;; hf_extract data) net))).
Proof. rewrite call_hf_inference_run by exact token_set. now rewrite answered. Qed.

Lemma hf_run_decoded (data : json) (v : result json) :
  ~ error_status r -> body r = Valid data -> pure_value (hf_extract data) v ->
  run (call_hf_inference cfg prompt model max_tokens temperature) net
  = ([hf_request cfg prompt model max_tokens temperature], handled hf_answer v).
Proof.
  intros Hs Hb Hv. rewrite hf_run_answered.
  now rewrite (decoded_value r hf_extract data v net Hs Hb Hv).
Qed.

End HFResponses.

(** X1. An HTTP error status (400 to 599) answered to the Hugging Face POST
    is reported as text: the client returns ["Exception calling Hugging Face
    Inference API: "] followed by a message that starts with the status
    code, after that single request and whatever the body holds. *)
Theorem hf_http_error_becomes_text (cfg : config) (prompt : string)
    (model : option string) (max_tokens : Z) (temperature : float)
    (net : network) (r : response) :
  truthy (HUGGINGFACE_API_TOKEN cfg) = true ->
  net (hf_request cfg prompt model max_tokens temperature) = Responds r ->
  (400 <= status_code r < 600)%Z ->
  exists msg,
    run (call_hf_inference cfg prompt model max_tokens temperature) net
    = ([hf_request cfg prompt model max_tokens temperature],
       Ok (JStr (hf_exception_prefix ++ msg)))
    /\ PyStr.startswith
         (DecimalString.NilEmpty.string_of_int (Z.to_int (status_code r))) msg = true.
Proof.
  intros Htok Hnet Hst.
  destruct (raise_for_status_rejects r Hst) as (msg & Hmsg & Hcode).
  exists msg. split; [|exact Hcode].
  rewrite (hf_run_answered cfg prompt model max_tokens temperature net r Htok Hnet).
  now rewrite (rejected_value r hf_extract msg net Hmsg).
Qed.

Lemma hf_http_error_becomes_text_witness :
  exists msg,
    run (call_hf_inference Sample.configured "p" None 300 0.5)
        (Scenario.rejecting 503 "Service Unavailable")
    = ([hf_request Sample.configured "p" None 300 0.5],
       Ok (JStr (hf_exception_prefix ++ msg)))
    /\ PyStr.startswith "503" msg = true.
Proof.
  apply (hf_http_error_becomes_text Sample.configured "p" None 300 0.5
           (Scenario.rejecting 503 "Service Unavailable")
           {| status_code := 503; reason := "Service Unavailable";
              url := "https://service.example";
              body := Valid (JDict [("error", JStr "Service Unavailable")]) |}).
  - reflexivity.
  - reflexivity.
  - cbn [status_code]. lia.
Defined.

(** X2. A response with a passing status whose body is not JSON makes the
    Hugging Face client return the handler's text with the decoder's
    message, after its single request. *)
Theorem hf_undecodable_body_becomes_text (cfg : config) (prompt : string)
    (model : option string) (max_tokens : Z) (temperature : float)
    (net : network) (r : response) (msg : string) :
  truthy (HUGGINGFACE_API_TOKEN cfg) = true ->
  net (hf_request cfg prompt model max_tokens temperature) = Responds r ->
  ~ (400 <= status_code r < 600)%Z ->
  body r = Invalid msg ->
  run (call_hf_inference cfg prompt model max_tokens temperature) net
  = ([hf_request cfg prompt model max_tokens temperature],
     Ok (JStr (hf_exception_prefix ++ msg))).
Proof.
  intros Htok Hnet Hst Hb.
  rewrite (hf_run_answered cfg prompt model max_tokens temperature net r Htok Hnet).
  now rewrite (undecodable_value r hf_extract msg net Hst Hb).
Qed.

Lemma hf_undecodable_body_becomes_text_witness :
  run (call_hf_inference Sample.configured "p" None 300 0.5)
      (fun _ => Scenario.status 200 "OK" (Invalid "Expecting value: line 1 column 1 (char 0)"))
  = ([hf_request Sample.configured "p" None 300 0.5],
     Ok (JStr (hf_exception_prefix ++ "Expecting value: line 1 column 1 (char 0)"))).
Proof.
  apply (hf_undecodable_body_becomes_text Sample.configured "p" None 300 0.5 _
           {| status_code := 200; reason := "OK"; url := "https://service.example";
              body := Invalid "Expecting value: line 1 column 1 (char 0)" |}).
  - reflexivity.
  - reflexivity.
  - cbn [status_code]. lia.
  - reflexivity.
Defined.

(** X3. When the decoded body is a non-empty array whose first element is
    an object with a ["generated_text"] field, or is itself such an object,
    the client returns that field's value unchanged, of whatever type, after
    its single request; the other elements of the array are not looked at. *)
Theorem hf_generated_text_verbatim (cfg : config) (prompt : string)
    (model : option string) (max_tokens : Z) (temperature : float)
    (net : network) (r : response)
    (data : json) (fields : list (string * json)) (rest : list json) (v : json) :
  truthy (HUGGINGFACE_API_TOKEN cfg) = true ->
  net (hf_request cfg prompt model max_tokens temperature) = Responds r ->
  ~ (400 <= status_code r < 600)%Z ->
  body r = Valid data ->
  data = JList (JDict fields :: rest) \/ data = JDict fields ->
  assoc "generated_text" fields = Some v ->
  run (call_hf_inference cfg prompt model max_tokens temperature) net
  = ([hf_request cfg prompt model max_tokens temperature], Ok v).
Proof.
  intros Htok Hnet Hst Hb Hshape Hv.
  apply (hf_run_decoded cfg prompt model max_tokens temperature net r Htok Hnet
           data (Ok v) Hst Hb).
  destruct Hshape as [-> | ->].
  - now apply hf_extract_array_object.
  - now apply hf_extract_object.
Qed.

Lemma hf_generated_text_verbatim_witness :
  run (call_hf_inference Sample.configured "p" None 300 0.5)
      (Sample.answering (JList [JDict [("generated_text", JInt 7)]; JNull]))
  = ([hf_request Sample.configured "p" None 300 0.5], Ok (JInt 7)).
Proof.
  apply (hf_generated_text_verbatim Sample.configured "p" None 300 0.5 _
           {| status_code := 200; reason := "OK"; url := "";
              body := Valid (JList [JDict [("generated_text", JInt 7)]; JNull]) |}
           (JList [JDict [("generated_text", JInt 7)]; JNull])
           [("generated_text", JInt 7)] [JNull] (JInt 7)).
  - reflexivity.
  - reflexivity.
  - cbn [status_code]. lia.
  - reflexivity.
  - left. reflexivity.
  - reflexivity.
Defined.

(** X4. On every decoded body that reaches line 51 (a scalar, a string, an
    empty array, an object without the field, or an array whose first
    element is an object without the field or a string or array that does not
    contain ["generated_text"]) the client returns [json.dumps] of the
    body. *)
Theorem hf_fallback_serializes_body (cfg : config) (prompt : string)
    (model : option string) (max_tokens : Z) (temperature : float)
    (net : network) (r : response) (data : json) :
  truthy (HUGGINGFACE_API_TOKEN cfg) = true ->
  net (hf_request cfg prompt model max_tokens temperature) = Responds r ->
  ~ (400 <= status_code r < 600)%Z ->
  body r = Valid data ->
  falls_back data ->
  run (call_hf_inference cfg prompt model max_tokens temperature) net
  = ([hf_request cfg prompt model max_tokens temperature],
     Ok (JStr (Dumps.dumps data))).
Proof.
  intros Htok Hnet Hst Hb Hf.
  apply (hf_run_decoded cfg prompt model max_tokens temperature net r Htok Hnet
           data (Ok (JStr (Dumps.dumps data))) Hst Hb).
  now apply hf_extract_fallback.
Qed.

Lemma hf_fallback_serializes_body_witness :
  run (call_hf_inference Sample.configured "p" None 300 0.5)
      (Sample.answering (JDict [("error", JStr "loading")]))
  = ([hf_request Sample.configured "p" None 300 0.5],
     Ok (JStr (Dumps.dumps (JDict [("error", JStr "loading")])))).
Proof.
  apply (hf_fallback_serializes_body Sample.configured "p" None 300 0.5 _
           {| status_code := 200; reason := "OK"; url := "";
              body := Valid (JDict [("error", JStr "loading")]) |}).
  - reflexivity.
  - reflexivity.
  - cbn [status_code]. lia.
  - reflexivity.
  - apply fb_object. reflexivity.
Defined.

Definition is_scalar (x : json) : bool :=
  match x with
  | JNull | JBool _ | JInt _ | JFloat _ => true
  | _ => false
  end.

Lemma hf_extract_scalar_first (x : json) (rest : list json) :
  is_scalar x = true ->
  pure_value (hf_extract (JList (x :: rest)))
    (Raise (TypeError ("argument of type '" ++ type_name x ++ "' is not iterable"))).
Proof.
  intros H net log. destruct x; try discriminate; reflexivity.
Qed.

(** X5. When the decoded body is an array whose first element is [null], a
    boolean or a number, the membership test of line 46 raises and the
    client returns the handler's text naming the element's type; the
    serialized body is not returned. *)
Theorem hf_scalar_first_element_becomes_text (cfg : config) (prompt : string)
    (model : option string) (max_tokens : Z) (temperature : float)
    (net : network) (r : response) (x : json) (rest : list json) :
  truthy (HUGGINGFACE_API_TOKEN cfg) = true ->
  net (hf_request cfg prompt model max_tokens temperature) = Responds r ->
  ~ (400 <= status_code r < 600)%Z ->
  body r = Valid (JList (x :: rest)) ->
  is_scalar x = true ->
  run (call_hf_inference cfg prompt model max_tokens temperature) net
  = ([hf_request cfg prompt model max_tokens temperature],
     Ok (JStr (hf_exception_prefix ++ "argument of type '" ++ type_name x
               ++ "' is not iterable"))).
Proof.
  intros Htok Hnet Hst Hb Hx.
  rewrite (hf_run_decoded cfg prompt model max_tokens temperature net r Htok Hnet
             (JList (x :: rest)) _ Hst Hb (hf_extract_scalar_first x rest Hx)).
  reflexivity.
Qed.

Lemma hf_scalar_first_element_becomes_text_witness :
  run (call_hf_inference Sample.configured "p" None 300 0.5)
      (Sample.answering (JList [JNull; JStr "x"]))
  = ([hf_request Sample.configured "p" None 300 0.5],
     Ok (JStr (hf_exception_prefix ++ "argument of type 'NoneType' is not iterable"))).
Proof.
  apply (hf_scalar_first_element_becomes_text Sample.configured "p" None 300 0.5 _
           {| status_code := 200; reason := "OK"; url := "";
              body := Valid (JList [JNull; JStr "x"]) |} JNull [JStr "x"]).
  - reflexivity.
  - reflexivity.
  - cbn [status_code]. lia.
  - reflexivity.
  - reflexivity.
Defined.

(** X6. With a credential set, a call of the Hugging Face client issues
    exactly one request whatever the network does, a POST to the models URL
    carrying the token, the prompt and the two sampling parameters; when no
    model is passed, or the empty string, the URL names [GRANITE_MODEL]. *)
Theorem hf_single_request (cfg : config) (prompt : string) (model : option string)
    (max_tokens : Z) (temperature : float) (net : network) :
  truthy (HUGGINGFACE_API_TOKEN cfg) = true ->
  fst (run (call_hf_inference cfg prompt model max_tokens temperature) net)
  = [HFPost ("https://api-inference.huggingface.co/models/"
             ++ (if truthy model then fstr model else GRANITE_MODEL cfg))
            (fstr (HUGGINGFACE_API_TOKEN cfg)) prompt max_tokens temperature]
  /\ (model = None \/ model = Some "" ->
      fst (run (call_hf_inference cfg prompt model max_tokens temperature) net)
      = [HFPost ("https://api-inference.huggingface.co/models/" ++ GRANITE_MODEL cfg)
                (fstr (HUGGINGFACE_API_TOKEN cfg)) prompt max_tokens temperature]).
Proof.
  intros Htok.
  rewrite (call_hf_inference_run cfg prompt model max_tokens temperature net Htok).
  split; [reflexivity|].
  intros [-> | ->]; reflexivity.
Qed.

Lemma hf_single_request_witness :
  fst (run (call_hf_inference Sample.configured "p" (Some "") 300 0.5) Sample.down)
  = [HFPost "https://api-inference.huggingface.co/models/ibm-granite/granite-3.3-2b-instruct"
            "hf_token" "p" 300 0.5].
Proof.
  apply (proj2 (hf_single_request Sample.configured "p" (Some "") 300 0.5 Sample.down
                  eq_refl)).
  right. reflexivity.
Defined.

(** ** AssistantClient *)

Lemma send_bind_responds {A} (rq : request) (k : response -> M A) (net : network)
    (r : response) :
  net rq = Responds r -> is_pure (k r) ->
  snd (run (bind (send rq) k) net) = snd (run (k r) net).
Proof.
  intros Hr [v Hv]. unfold run, bind, send. rewrite Hr. now rewrite !Hv.
Qed.

Section WatsonStepValues.

Variables (base assistant apikey : string) (net : network) (r : response).

Lemma create_session_value (fields : list (string * json)) :
  net (WatsonCreateSession base assistant apikey) = Responds r ->
  ~ error_status r -> body r = Valid (JDict fields) ->
  snd (run (watson_create_session base assistant apikey) net)
  = Ok (match assoc "session_id" fields with Some v => v | None => JNull end).
Proof.
  intros Hr Hs Hb. unfold watson_create_session.
  rewrite (send_bind_responds _ _ net r Hr) by pure_step.
  apply decoded_value with (data := JDict fields); auto.
  intros n l. reflexivity.
Qed.

Lemma send_message_value (sid : json) (message : string) (out : json) :
  net (WatsonMessage base assistant apikey sid message) = Responds r ->
  ~ error_status r -> body r = Valid out ->
  snd (run (watson_send_message base assistant apikey sid message) net) = Ok out.
Proof.
  intros Hr Hs Hb. unfold watson_send_message.
  rewrite (send_bind_responds _ _ net r Hr) by pure_step.
  unfold run, bind. rewrite (raise_for_status_passes r Hs).
  unfold resp_json. now rewrite Hb.
Qed.

Lemma send_message_rejected (sid : json) (message : string) :
  net (WatsonMessage base assistant apikey sid message) = Responds r ->
  error_status r ->
  exists msg,
    snd (run (watson_send_message base assistant apikey sid message) net)
    = Raise (HTTPError msg).
Proof.
  intros Hr Hs. unfold watson_send_message.
  rewrite (send_bind_responds _ _ net r Hr) by pure_step.
  destruct (raise_for_status_rejects r Hs) as (msg & Hmsg & _).
  exists msg. unfold run, bind. now rewrite Hmsg.
Qed.

Lemma send_message_undecodable (sid : json) (message msg : string) :
  net (WatsonMessage base assistant apikey sid message) = Responds r ->
  ~ error_status r -> body r = Invalid msg ->
  snd (run (watson_send_message base assistant apikey sid message) net)
  = Raise (JSONDecodeError msg).
Proof.
  intros Hr Hs Hb. unfold watson_send_message.
  rewrite (send_bind_responds _ _ net r Hr) by pure_step.
  unfold run, bind. rewrite (raise_for_status_passes r Hs).
  unfold resp_json. now rewrite Hb.
Qed.

End WatsonStepValues.

Section WatsonReplies.

Variables (cfg : config) (message : string) (net : network) (sid out : json).
Hypothesis configured : watson_configured cfg = true.

Let base := fstr (WATSON_URL cfg).
Let assistant := fstr (WATSON_ASSISTANT_ID cfg).
Let apikey := fstr (WATSON_APIKEY cfg).

Hypothesis created :
  snd (run (watson_create_session base assistant apikey) net) = Ok sid.
Hypothesis replied :
  snd (run (watson_send_message base assistant apikey sid message) net) = Ok out.

(** Once the message is answered, the three requests are issued and the
    value is the one of lines 79-83. *)
Lemma watson_run_replied (v : result string) :
  pure_value (watson_reply out) v ->
  run (call_watson_assistant cfg message) net
  = ([WatsonCreateSession base assistant apikey;
      WatsonMessage base assistant apikey sid message;
      WatsonDeleteSession base assistant apikey sid],
     handled watson_answer v).
Proof.
  intros Hv. rewrite (call_watson_assistant_run cfg message net configured).
  fold base assistant apikey. rewrite created, replied.
  unfold run at 1. now rewrite Hv.
Qed.

End WatsonReplies.

(** X7. The session identifier is threaded through the protocol: when the
    session response is an object, the message request and the tear-down
    request carry its ["session_id"] field, and [None] when the field is
    missing; the message request carries the caller's text. *)
Theorem watson_session_id_threaded (cfg : config) (message : string) (net : network)
    (r : response) (fields : list (string * json)) :
  watson_configured cfg = true ->
  let base := fstr (WATSON_URL cfg) in
  let assistant := fstr (WATSON_ASSISTANT_ID cfg) in
  let apikey := fstr (WATSON_APIKEY cfg) in
  let sid := match assoc "session_id" fields with Some v => v | None => JNull end in
  net (WatsonCreateSession base assistant apikey) = Responds r ->
  ~ (400 <= status_code r < 600)%Z ->
  body r = Valid (JDict fields) ->
  fst (run (call_watson_assistant cfg message) net)
  = [WatsonCreateSession base assistant apikey;
     WatsonMessage base assistant apikey sid message]
  \/ fst (run (call_watson_assistant cfg message) net)
     = [WatsonCreateSession base assistant apikey;
        WatsonMessage base assistant apikey sid message;
        WatsonDeleteSession base assistant apikey sid].
Proof.
  intros Hcfg base assistant apikey sid Hr Hs Hb.
  rewrite (call_watson_assistant_run cfg message net Hcfg).
  fold base assistant apikey.
  rewrite (create_session_value base assistant apikey net r fields Hr Hs Hb).
  fold sid.
  destruct (snd (run (watson_send_message base assistant apikey sid message) net));
    [right | left]; reflexivity.
Qed.

Lemma watson_session_id_threaded_witness :
  fst (run (call_watson_assistant Sample.configured "hi")
           (Scenario.watson_session (Sample.ok (JDict [])) (Sample.ok Sample.one_text)))
  = [WatsonCreateSession "https://watson.example" "assistant" "key";
     WatsonMessage "https://watson.example" "assistant" "key" JNull "hi"]
  \/ fst (run (call_watson_assistant Sample.configured "hi")
              (Scenario.watson_session (Sample.ok (JDict [])) (Sample.ok Sample.one_text)))
     = [WatsonCreateSession "https://watson.example" "assistant" "key";
        WatsonMessage "https://watson.example" "assistant" "key" JNull "hi";
        WatsonDeleteSession "https://watson.example" "assistant" "key" JNull].
Proof.
  apply (watson_session_id_threaded Sample.configured "hi"
           (Scenario.watson_session (Sample.ok (JDict [])) (Sample.ok Sample.one_text))
           {| status_code := 200; reason := "OK"; url := ""; body := Valid (JDict []) |}
           [] eq_refl).
  - reflexivity.
  - cbn [status_code]. lia.
  - reflexivity.
Defined.

(** X8. A failed message step leaves the session open: when the message
    request raises, is answered with an error status or with a body that is
    not JSON, the client ends after two requests and the tear-down request
    is never issued.  It returns the error text, unless the message request
    itself raised what is no instance of [Exception]: that leaves the
    client after the same two requests. *)
Theorem watson_message_failure_skips_tear_down (cfg : config) (message : string)
    (net : network) (sid : json) :
  watson_configured cfg = true ->
  let base := fstr (WATSON_URL cfg) in
  let assistant := fstr (WATSON_ASSISTANT_ID cfg) in
  let apikey := fstr (WATSON_APIKEY cfg) in
  let send_msg := WatsonMessage base assistant apikey sid message in
  snd (run (watson_create_session base assistant apikey) net) = Ok sid ->
  (exists e, net send_msg = Fails e)
  \/ (exists r, net send_msg = Responds r
                /\ ((400 <= status_code r < 600)%Z \/ exists msg, body r = Invalid msg)) ->
  exists e,
    run (call_watson_assistant cfg message) net
    = ([WatsonCreateSession base assistant apikey; send_msg],
       if is_exception e then Ok (watson_exception_prefix ++ exn_str e) else Raise e)
    /\ (is_exception e = false -> net send_msg = Fails e).
Proof.
  intros Hcfg base assistant apikey send_msg Hsid Hfail.
  assert (Hraise : exists e,
             snd (run (watson_send_message base assistant apikey sid message) net)
             = Raise e
             /\ (is_exception e = false -> net send_msg = Fails e)).
  { destruct Hfail as [[e He] | (r & Hr & Hbad)].
    - exists e. split; [|intros _; exact He]. unfold watson_send_message.
      now rewrite (send_bind_fails _ _ net e He).
    - destruct (Z_le_dec 400 (status_code r)) as [H4|H4];
        [destruct (Z_lt_dec (status_code r) 600) as [H6|H6] |].
      + destruct (send_message_rejected base assistant apikey net r sid message Hr)
          as [msg Hmsg]; [split; assumption|].
        exists (HTTPError msg). split; [exact Hmsg | discriminate].
      + destruct Hbad as [Hbad | [msg Hmsg]]; [lia|].
        exists (JSONDecodeError msg). split; [|discriminate].
        apply (send_message_undecodable base assistant apikey net r sid message msg Hr);
          [unfold error_status; lia | exact Hmsg].
      + destruct Hbad as [Hbad | [msg Hmsg]]; [lia|].
        exists (JSONDecodeError msg). split; [|discriminate].
        apply (send_message_undecodable base assistant apikey net r sid message msg Hr);
          [unfold error_status; lia | exact Hmsg]. }
  destruct Hraise as (e & He & Hnet). exists e. split; [|exact Hnet].
  rewrite (call_watson_assistant_run cfg message net Hcfg).
  fold base assistant apikey. rewrite Hsid, He. reflexivity.
Qed.

Lemma watson_message_failure_skips_tear_down_witness :
  exists e,
    run (call_watson_assistant Sample.configured "hi") Sample.watson_lost
    = ([WatsonCreateSession "https://watson.example" "assistant" "key";
        WatsonMessage "https://watson.example" "assistant" "key" (JStr "s1") "hi"],
       if is_exception e then Ok (watson_exception_prefix ++ exn_str e) else Raise e)
    /\ (is_exception e = false
        -> Sample.watson_lost
             (WatsonMessage "https://watson.example" "assistant" "key" (JStr "s1") "hi")
           = Fails e).
Proof.
  apply (watson_message_failure_skips_tear_down Sample.configured "hi"
           Sample.watson_lost (JStr "s1") eq_refl).
  - reflexivity.
  - left. exists Sample.timed_out. reflexivity.
Defined.

Lemma watson_reply_not_object (out : json) :
  Py.isinstance_dict out = false ->
  pure_value (watson_reply out)
    (Raise (AttributeError ("'" ++ type_name out ++ "' object has no attribute 'get'"))).
Proof.
  intros H net log. destruct out; try discriminate; reflexivity.
Qed.

(** X9. The tear-down comes before the reply is read: once the message is
    answered with JSON, all three requests are issued even when the body
    cannot be used; a body that is not an object gives the handler's text
    for the failed [.get], not the serialized body. *)
Theorem watson_tear_down_precedes_reply (cfg : config) (message : string)
    (net : network) (sid out : json) :
  watson_configured cfg = true ->
  let base := fstr (WATSON_URL cfg) in
  let assistant := fstr (WATSON_ASSISTANT_ID cfg) in
  let apikey := fstr (WATSON_APIKEY cfg) in
  snd (run (watson_create_session base assistant apikey) net) = Ok sid ->
  snd (run (watson_send_message base assistant apikey sid message) net) = Ok out ->
  fst (run (call_watson_assistant cfg message) net)
  = [WatsonCreateSession base assistant apikey;
     WatsonMessage base assistant apikey sid message;
     WatsonDeleteSession base assistant apikey sid]
  /\ (Py.isinstance_dict out = false ->
      snd (run (call_watson_assistant cfg message) net)
      = Ok (watson_exception_prefix ++ "'" ++ type_name out
            ++ "' object has no attribute 'get'")).
Proof.
  intros Hcfg base assistant apikey Hsid Hout. split.
  - destruct (is_pure_watson_reply out) as [v Hv].
    now rewrite (watson_run_replied cfg message net sid out Hcfg Hsid Hout v Hv).
  - intros Hno.
    now rewrite (watson_run_replied cfg message net sid out Hcfg Hsid Hout _
                   (watson_reply_not_object out Hno)).
Qed.

Lemma watson_tear_down_precedes_reply_witness :
  fst (run (call_watson_assistant Sample.configured "hi")
           (Sample.watson (JList []) (Sample.ok JNull)))
  = [WatsonCreateSession "https://watson.example" "assistant" "key";
     WatsonMessage "https://watson.example" "assistant" "key" (JStr "s1") "hi";
     WatsonDeleteSession "https://watson.example" "assistant" "key" (JStr "s1")]
  /\ snd (run (call_watson_assistant Sample.configured "hi")
              (Sample.watson (JList []) (Sample.ok JNull)))
     = Ok (watson_exception_prefix ++ "'list' object has no attribute 'get'").
Proof.
  destruct (watson_tear_down_precedes_reply Sample.configured "hi"
              (Sample.watson (JList []) (Sample.ok JNull)) (JStr "s1") (JList [])
              eq_refl eq_refl eq_refl) as [Hlog Hval].
  split; [exact Hlog | apply Hval; reflexivity].
Defined.

(** X10. For a message response of the documented shape, an object whose
    ["output"] object holds a ["generic"] array of objects, the client
    returns the ["text"] of the entries whose ["response_type"] is ["text"],
    in response order, joined by the separator written on line 83 (a
    backslash followed by [n]); entries of another type are dropped, a kept
    entry without ["text"] counts as the empty string, and when no entry is
    kept the serialized response is returned. *)
Theorem watson_reply_selects_text_entries (cfg : config) (message : string)
    (net : network) (sid : json)
    (top output : list (string * json)) (entries : list (list (string * json)))
    (segments : list string) :
  watson_configured cfg = true ->
  let base := fstr (WATSON_URL cfg) in
  let assistant := fstr (WATSON_ASSISTANT_ID cfg) in
  let apikey := fstr (WATSON_APIKEY cfg) in
  snd (run (watson_create_session base assistant apikey) net) = Ok sid ->
  snd (run (watson_send_message base assistant apikey sid message) net)
  = Ok (JDict top) ->
  assoc "output" top = Some (JDict output) ->
  assoc "generic" output = Some (JList (List.map JDict entries)) ->
  kept_texts entries = List.map JStr segments ->
  snd (run (call_watson_assistant cfg message) net)
  = Ok match segments with
       | [] => Dumps.dumps (JDict top)
       | _ :: _ => PyStr.join PyStr.backslash_n segments
       end.
Proof.
  intros Hcfg base assistant apikey Hsid Hout Ho Hg Hk.
  now rewrite (watson_run_replied cfg message net sid (JDict top) Hcfg Hsid Hout _
                 (watson_reply_documented_shape top output entries segments Ho Hg Hk)).
Qed.

Lemma watson_reply_selects_text_entries_witness :
  snd (run (call_watson_assistant Sample.configured "hi")
           (Sample.watson Scenario.mixed_reply (Sample.ok JNull)))
  = Ok (PyStr.join PyStr.backslash_n ["a"; ""; "b"]).
Proof.
  apply (watson_reply_selects_text_entries Sample.configured "hi"
           (Sample.watson Scenario.mixed_reply (Sample.ok JNull)) (JStr "s1")
           [("output", JDict [("generic", JList (List.map JDict Scenario.mixed_entries))])]
           [("generic", JList (List.map JDict Scenario.mixed_entries))]
           Scenario.mixed_entries ["a"; ""; "b"]
           eq_refl eq_refl eq_refl eq_refl eq_refl eq_refl).
Defined.

Lemma watson_reply_without_entries (top : list (string * json)) :
  assoc "output" top = None
  \/ (exists output, assoc "output" top = Some (JDict output)
                     /\ assoc "generic" output = None) ->
  pure_value (watson_reply (JDict top)) (Ok (Dumps.dumps (JDict top))).
Proof.
  intros [Ho | (output & Ho & Hg)] net log; unfold watson_reply.
  - unfold bind at 1. simpl. rewrite Ho. reflexivity.
  - unfold bind at 1. simpl. rewrite Ho.
    unfold bind at 1. simpl. rewrite Hg. reflexivity.
Qed.

(** X11. Missing keys are tolerated: when the message response is an object
    without ["output"], or its ["output"] object has no ["generic"], the
    defaults of line 80 apply and the client returns the serialized
    response. *)
Theorem watson_missing_keys_serialize_body (cfg : config) (message : string)
    (net : network) (sid : json) (top : list (string * json)) :
  watson_configured cfg = true ->
  let base := fstr (WATSON_URL cfg) in
  let assistant := fstr (WATSON_ASSISTANT_ID cfg) in
  let apikey := fstr (WATSON_APIKEY cfg) in
  snd (run (watson_create_session base assistant apikey) net) = Ok sid ->
  snd (run (watson_send_message base assistant apikey sid message) net)
  = Ok (JDict top) ->
  assoc "output" top = None
  \/ (exists output, assoc "output" top = Some (JDict output)
                     /\ assoc "generic" output = None) ->
  snd (run (call_watson_assistant cfg message) net) = Ok (Dumps.dumps (JDict top)).
Proof.
  intros Hcfg base assistant apikey Hsid Hout Hmiss.
  now rewrite (watson_run_replied cfg message net sid (JDict top) Hcfg Hsid Hout _
                 (watson_reply_without_entries top Hmiss)).
Qed.

Lemma watson_missing_keys_serialize_body_witness :
  snd (run (call_watson_assistant Sample.configured "hi")
           (Sample.watson Scenario.no_generic (Sample.ok JNull)))
  = Ok (Dumps.dumps Scenario.no_generic).
Proof.
  apply (watson_missing_keys_serialize_body Sample.configured "hi"
           (Sample.watson Scenario.no_generic (Sample.ok JNull)) (JStr "s1")
           [("output", JDict [("intents", JList [])])] eq_refl eq_refl eq_refl).
  right. exists [("intents", JList [])]. split; reflexivity.
Defined.

Definition is_str (x : json) : bool :=
  match x with
  | JStr _ => true
  | _ => false
  end.

Lemma strings_first_non_str (pre : list string) (x : json) (post : list json) (i : nat) :
  is_str x = false ->
  Py.strings i (List.map JStr pre ++ x :: post) = inl ((i + List.length pre)%nat, x).
Proof.
  intros Hx. revert i. induction pre as [|s pre IH]; intros i; simpl.
  - rewrite Nat.add_0_r. destruct x; try reflexivity; discriminate.
  - rewrite IH. f_equal. f_equal. lia.
Qed.

Lemma watson_reply_non_str_text
    (top output : list (string * json)) (entries : list (list (string * json)))
    (pre : list string) (x : json) (post : list json) :
  assoc "output" top = Some (JDict output) ->
  assoc "generic" output = Some (JList (List.map JDict entries)) ->
  kept_texts entries = (List.map JStr pre ++ x :: post)%list ->
  is_str x = false ->
  pure_value (watson_reply (JDict top))
    (Raise (TypeError ("sequence item "
                       ++ DecimalString.NilEmpty.string_of_uint
                            (Nat.to_uint (List.length pre))
                       ++ ": expected str instance, " ++ type_name x ++ " found"))).
Proof.
  intros Ho Hg Hk Hx net log. unfold watson_reply.
  unfold bind at 1. simpl. rewrite Ho.
  unfold bind at 1. simpl. rewrite Hg.
  unfold bind at 1. simpl.
  unfold bind at 1. rewrite collect_texts_objects. simpl. rewrite Hk.
  assert (Hs := strings_first_non_str pre x post 0 Hx). simpl in Hs.
  destruct (List.map JStr pre ++ x :: post)%list as [|y ys] eqn:E.
  - destruct pre; discriminate.
  - unfold Py.join. rewrite Hs. reflexivity.
Qed.

(** X12. A kept entry whose ["text"] is not a string makes the join of line
    83 raise: the client returns the handler's text naming the position of
    the first such segment and its type, after all three requests. *)
Theorem watson_non_string_text_becomes_text (cfg : config) (message : string)
    (net : network) (sid : json)
    (top output : list (string * json)) (entries : list (list (string * json)))
    (pre : list string) (x : json) (post : list json) :
  watson_configured cfg = true ->
  let base := fstr (WATSON_URL cfg) in
  let assistant := fstr (WATSON_ASSISTANT_ID cfg) in
  let apikey := fstr (WATSON_APIKEY cfg) in
  snd (run (watson_create_session base assistant apikey) net) = Ok sid ->
  snd (run (watson_send_message base assistant apikey sid message) net)
  = Ok (JDict top) ->
  assoc "output" top = Some (JDict output) ->
  assoc "generic" output = Some (JList (List.map JDict entries)) ->
  kept_texts entries = (List.map JStr pre ++ x :: post)%list ->
  is_str x = false ->
  run (call_watson_assistant cfg message) net
  = ([WatsonCreateSession base assistant apikey;
      WatsonMessage base assistant apikey sid message;
      WatsonDeleteSession base assistant apikey sid],
     Ok (watson_exception_prefix ++ "sequence item "
         ++ DecimalString.NilEmpty.string_of_uint (Nat.to_uint (List.length pre))
         ++ ": expected str instance, " ++ type_name x ++ " found")).
Proof.
  intros Hcfg base assistant apikey Hsid Hout Ho Hg Hk Hx.
  now rewrite (watson_run_replied cfg message net sid (JDict top) Hcfg Hsid Hout _
                 (watson_reply_non_str_text top output entries pre x post Ho Hg Hk Hx)).
Qed.

Lemma watson_non_string_text_becomes_text_witness :
  snd (run (call_watson_assistant Sample.configured "hi")
           (Sample.watson
              (JDict [("output",
                       JDict [("generic",
                               JList (List.map JDict
                                        [[("response_type", JStr "text"); ("text", JStr "a")];
                                         [("response_type", JStr "text"); ("text", JInt 5)]]))])])
              (Sample.ok JNull)))
  = Ok (watson_exception_prefix ++ "sequence item 1: expected str instance, int found").
Proof.
  pose proof
    (watson_non_string_text_becomes_text Sample.configured "hi"
       (Sample.watson
          (JDict [("output",
                   JDict [("generic",
                           JList (List.map JDict
                                    [[("response_type", JStr "text"); ("text", JStr "a")];
                                     [("response_type", JStr "text"); ("text", JInt 5)]]))])])
          (Sample.ok JNull))
       (JStr "s1") _ _
       [[("response_type", JStr "text"); ("text", JStr "a")];
        [("response_type", JStr "text"); ("text", JInt 5)]]
       ["a"] (JInt 5) [] eq_refl eq_refl eq_refl eq_refl eq_refl eq_refl eq_refl) as H.
  rewrite H. reflexivity.
Defined.

(** ** PromptBuilder: the prompt determines its inputs *)

Lemma str_app_inv_head (a b c : string) : a ++ b = a ++ c -> b = c.
Proof. induction a as [|x a IH]; simpl; intros H; [exact H | injection H; auto]. Qed.

Lemma str_length_app (a b : string) :
  String.length (a ++ b) = (String.length a + String.length b)%nat.
Proof. induction a as [|x a IH]; simpl; [reflexivity | now rewrite IH]. Qed.

Lemma str_app_inv_tail (t a b : string) : a ++ t = b ++ t -> a = b.
Proof.
  revert b. induction a as [|x a IH]; intros [|y b] H; simpl in H.
  - reflexivity.
  - apply (f_equal String.length) in H. simpl in H. rewrite str_length_app in H. lia.
  - apply (f_equal String.length) in H. simpl in H. rewrite str_length_app in H. lia.
  - injection H as -> H. f_equal. now apply IH.
Qed.

Lemma prompt_template_inj (tone depth q q' : string) :
  prompt_template tone depth q = prompt_template tone depth q' -> q = q'.
Proof.
  unfold prompt_template. intros H.
  repeat (apply str_app_inv_head in H).
  now apply str_app_inv_tail in H.
Qed.

Lemma prompt_template_persona_differs (q q' : string) :
  prompt_template student_tone student_depth q
  <> prompt_template professional_tone professional_depth q'.
Proof.
  unfold prompt_template, student_tone, professional_tone. simpl. intros H.
  discriminate H.
Qed.

(** X13. The prompt determines what it was built from: two calls of
    [build_prompt] return the same string only for the same question and
    for personas that select the same tone and depth. *)
Theorem build_prompt_injective (q q' persona persona' : string) :
  build_prompt q persona = build_prompt q' persona' ->
  q = q' /\ persona_text persona = persona_text persona'.
Proof.
  unfold build_prompt, persona_text.
  destruct (String.eqb persona "student"), (String.eqb persona' "student"); intros H.
  - split; [now apply prompt_template_inj in H | reflexivity].
  - now apply prompt_template_persona_differs in H.
  - symmetry in H. now apply prompt_template_persona_differs in H.
  - split; [now apply prompt_template_inj in H | reflexivity].
Qed.

Lemma build_prompt_injective_witness :
  "What is an ETF?" = "What is an ETF?"
  /\ persona_text "professional" = persona_text "advisor".
Proof.
  apply (build_prompt_injective "What is an ETF?" "What is an ETF?"
           "professional" "advisor").
  reflexivity.
Defined.

(** ** The prompt of a request and the page *)

Lemma endswith_inv (p s : string) :
  PyStr.endswith p s = true -> exists pre, s = pre ++ p.
Proof.
  induction s as [|c s IH]; simpl; intros H.
  - rewrite orb_false_r in H. apply String.eqb_eq in H. subst p. now exists "".
  - apply orb_true_iff in H. destruct H as [H|H].
    + apply String.eqb_eq in H. subst p. now exists "".
    + destruct (IH H) as [pre ->]. now exists (String c pre).
Qed.

Lemma str_snoc_inj (a b : string) (x y : ascii) :
  a ++ String x "" = b ++ String y "" -> x = y.
Proof.
  revert b. induction a as [|c a IH]; intros [|d b] H; simpl in H.
  - now injection H.
  - injection H as _ H. destruct b; discriminate.
  - injection H as _ H. destruct a; discriminate.
  - injection H as _ H. now apply IH in H.
Qed.

(** [s] ends with the character [n]. *)
Definition ends_with_n (s : string) : Prop := exists z, s = z ++ "n".

Lemma ends_with_n_app (a b : string) : ends_with_n b -> ends_with_n (a ++ b).
Proof. intros [z ->]. exists (a ++ z). now rewrite str_app_assoc. Qed.

Lemma backslash_n_ends_with_n : ends_with_n PyStr.backslash_n.
Proof. now exists (String (ascii_of_nat 92) ""). Qed.

Lemma budget_summary_ends_with_n (income essentials_pct savings_pct : float) :
  ends_with_n (generate_budget_summary income essentials_pct savings_pct).
Proof.
  unfold generate_budget_summary.
  destruct (budget_amounts income essentials_pct savings_pct) as [[e s] d].
  repeat apply ends_with_n_app. apply backslash_n_ends_with_n.
Qed.

Lemma ends_with_n_not_marker (s : string) :
  ends_with_n s -> PyStr.endswith "Output:" s = false.
Proof.
  intros [z ->]. destruct (PyStr.endswith "Output:" (z ++ "n")) eqn:E; [|reflexivity].
  apply endswith_inv in E. destruct E as [pre E].
  change "Output:" with ("Output" ++ ":") in E. rewrite <- str_app_assoc in E.
  apply str_snoc_inj in E. discriminate E.
Qed.

(** X14. In the request flow the marker does not stay at the end: with an
    income above zero the prompt that is sent still contains the question
    and the ["Output:"] marker, but it ends with the budget summary and no
    longer with the marker; with any other income (zero, negative, not a
    number) it is the built prompt unchanged. *)
Theorem request_prompt_marker_position (user_q persona : string) (income : float) :
  ((0 <? income)%float = true ->
   PyStr.contains user_q (request_prompt user_q persona income) = true
   /\ PyStr.contains "Output:" (request_prompt user_q persona income) = true
   /\ PyStr.endswith "Output:" (request_prompt user_q persona income) = false
   /\ PyStr.endswith
        (generate_budget_summary income default_essentials_pct default_savings_pct)
        (request_prompt user_q persona income) = true)
  /\ ((0 <? income)%float = false ->
      request_prompt user_q persona income = build_prompt user_q persona).
Proof.
  unfold request_prompt. split; intros H; rewrite H; [|reflexivity].
  rewrite build_prompt_template. split; [|split; [|split]].
  - rewrite prompt_template_split.
    rewrite (str_app_assoc _ (user_q ++ _) _), (str_app_assoc user_q).
    apply contains_app_r.
  - rewrite prompt_template_tail.
    rewrite (str_app_assoc _ "Output:" _).
    apply contains_app_r.
  - apply ends_with_n_not_marker.
    apply ends_with_n_app, ends_with_n_app, budget_summary_ends_with_n.
  - rewrite <- (str_app_assoc _ reference_budget_header
                  (generate_budget_summary income default_essentials_pct
                     default_savings_pct)).
    apply endswith_app.
Qed.

Lemma request_prompt_marker_position_witness :
  (PyStr.contains "q" (request_prompt "q" "student" 1000) = true
   /\ PyStr.contains "Output:" (request_prompt "q" "student" 1000) = true
   /\ PyStr.endswith "Output:" (request_prompt "q" "student" 1000) = false
   /\ PyStr.endswith
        (generate_budget_summary 1000 default_essentials_pct default_savings_pct)
        (request_prompt "q" "student" 1000) = true)
  /\ request_prompt "q" "student" (-5) = build_prompt "q" "student".
Proof.
  split.
  - apply (proj1 (request_prompt_marker_position "q" "student" 1000)). reflexivity.
  - apply (proj2 (request_prompt_marker_position "q" "student" (-5))). reflexivity.
Defined.

(** ** The "Get Answer" button *)

(** The run of a computation whose value is passed on through [f]. *)
Lemma run_bind_ret_result {A B} (m : M A) (f : A -> B) (net : network) :
  run (x <- m;; ret (f x)) net
  = (fst (run m net),
     match snd (run m net) with
     | Ok a => Ok (f a)
     | Raise e => Raise e
     end).
Proof. unfold run, bind. destruct (m net []) as [l [a|e]]; reflexivity. Qed.

(** A call of the Hugging Face client issues its one request, or none
    without a credential. *)
Lemma hf_log_shape (cfg : config) (prompt : string) (model : option string)
    (max_tokens : Z) (temperature : float) (net : network) :
  fst (run (call_hf_inference cfg prompt model max_tokens temperature) net)
  = if truthy (HUGGINGFACE_API_TOKEN cfg)
    then [hf_request cfg prompt model max_tokens temperature]
    else [].
Proof.
  destruct (truthy (HUGGINGFACE_API_TOKEN cfg)) eqn:Htok.
  - now rewrite (call_hf_inference_run cfg prompt model max_tokens temperature net Htok).
  - unfold call_hf_inference. now rewrite Htok.
Qed.

(** A call of the Watson client issues at most three requests, none of them
    to Hugging Face; the first is the session creation, and there is none
    without a configuration. *)
Lemma watson_log_shape (cfg : config) (message : string) (net : network) :
  let log := fst (run (call_watson_assistant cfg message) net) in
  List.forallb (fun rq => negb (is_hf_request rq)) log = true
  /\ (List.length log <= 3)%nat
  /\ (if watson_configured cfg
      then List.hd_error log
           = Some (WatsonCreateSession (fstr (WATSON_URL cfg))
                     (fstr (WATSON_ASSISTANT_ID cfg)) (fstr (WATSON_APIKEY cfg)))
      else log = []).
Proof.
  destruct (watson_configured cfg) eqn:Hcfg.
  - rewrite (call_watson_assistant_run cfg message net Hcfg).
    destruct (snd (run (watson_create_session _ _ _) net)) as [sid|e].
    + destruct (snd (run (watson_send_message _ _ _ sid message) net)) as [out|e];
        (split; [reflexivity | split; [simpl; lia | reflexivity]]).
    + split; [reflexivity | split; [simpl; lia | reflexivity]].
  - unfold call_watson_assistant. rewrite Hcfg.
    split; [reflexivity | split; [simpl; lia | reflexivity]].
Qed.

(** X15. A question that is empty or only white space is refused before
    anything else happens: the handler shows the warning alone, builds no
    prompt, calls no backend and issues no request, whatever the backend,
    the persona and the income are. *)
Theorem get_answer_blank_question (cfg : config) (backend persona user_q : string)
    (income : float) (net : network) :
  Strip.is_blank user_q = true ->
  run (get_answer cfg backend persona user_q income) net
  = ([], Ok [Warning please_enter]).
Proof. intros H. unfold get_answer. now rewrite H. Qed.

Lemma get_answer_blank_question_witness :
  run (get_answer Sample.configured "Granite (HuggingFace Inference API)" "student"
         (String (ascii_of_nat 9) (String (ascii_of_nat 10) "  ")) 30000)
      Sample.down
  = ([], Ok [Warning please_enter]).
Proof.
  apply (get_answer_blank_question Sample.configured
           "Granite (HuggingFace Inference API)" "student"
           (String (ascii_of_nat 9) (String (ascii_of_nat 10) "  ")) 30000 Sample.down).
  reflexivity.
Defined.

(** X16. For a question that is not blank the handler calls exactly one
    client, once, with the prompt of the request, and shows what that call
    returned.  When the backend name starts with ["Granite"], its requests
    are those of [call_hf_inference] for [GRANITE_MODEL], 400 new tokens
    and temperature 0.2: one Hugging Face request, or none without a
    credential; the page shows the notice, the Granite heading, the value
    that call returned and the local budget block.  Otherwise its requests
    are those of [call_watson_assistant]: at most three, none to Hugging
    Face, the first one the session creation, or none without a
    configuration; the page shows the notice, the Watson heading, the
    string that call returned and the local budget block.  An exception
    that leaves the client leaves the handler. *)
Theorem get_answer_calls_one_backend (cfg : config) (backend persona user_q : string)
    (income : float) (net : network) :
  Strip.is_blank user_q = false ->
  let prompt := request_prompt user_q persona income in
  let hf :=
    run (call_hf_inference cfg prompt (Some (GRANITE_MODEL cfg)) 400 ui_temperature) net in
  let watson := run (call_watson_assistant cfg prompt) net in
  if PyStr.startswith "Granite" backend
  then
    run (get_answer cfg backend persona user_q income) net
    = (fst hf,
       match snd hf with
       | Ok v =>
           Ok (Info generating :: Subheader granite_heading :: Write v
               :: local_budget income)
       | Raise e => Raise e
       end)
    /\ fst hf
       = (if truthy (HUGGINGFACE_API_TOKEN cfg)
          then [hf_request cfg prompt (Some (GRANITE_MODEL cfg)) 400 ui_temperature]
          else [])
  else
    run (get_answer cfg backend persona user_q income) net
    = (fst watson,
       match snd watson with
       | Ok s =>
           Ok (Info generating :: Subheader watson_heading :: Write (JStr s)
               :: local_budget income)
       | Raise e => Raise e
       end)
    /\ List.forallb (fun rq => negb (is_hf_request rq)) (fst watson) = true
    /\ (List.length (fst watson) <= 3)%nat
    /\ (if watson_configured cfg
        then List.hd_error (fst watson)
             = Some (WatsonCreateSession (fstr (WATSON_URL cfg))
                       (fstr (WATSON_ASSISTANT_ID cfg)) (fstr (WATSON_APIKEY cfg)))
        else fst watson = []).
Proof.
  intros Hq prompt hf watson. unfold get_answer. rewrite Hq. fold prompt.
  unfold ask_backend.
  destruct (PyStr.startswith "Granite" backend).
  - split; [|apply hf_log_shape].
    rewrite run_bind_ret_result, run_bind_ret_result. cbn [fst snd].
    change (run (call_hf_inference cfg prompt (Some (GRANITE_MODEL cfg))
                   ui_max_tokens ui_temperature) net) with hf.
    now destruct (snd hf).
  - split; [|apply watson_log_shape].
    rewrite run_bind_ret_result, run_bind_ret_result. cbn [fst snd].
    fold watson. now destruct (snd watson).
Qed.

Lemma get_answer_calls_one_backend_witness :
  run (get_answer Sample.configured "IBM Watson Assistant" "student" "q" 0)
      (Sample.watson Sample.one_text (Sample.ok JNull))
  = ([WatsonCreateSession "https://watson.example" "assistant" "key";
      WatsonMessage "https://watson.example" "assistant" "key" (JStr "s1")
        (request_prompt "q" "student" 0);
      WatsonDeleteSession "https://watson.example" "assistant" "key" (JStr "s1")],
     Ok [Info generating; Subheader watson_heading; Write (JStr "Hello")]).
Proof.
  apply (proj1 (get_answer_calls_one_backend Sample.configured "IBM Watson Assistant"
                  "student" "q" 0 (Sample.watson Sample.one_text (Sample.ok JNull))
                  eq_refl)).
Defined.

(** X17. With the Granite backend and a credential set, the handler's single
    request is the POST for the model named by [GRANITE_MODEL], with 400 new
    tokens, temperature 0.2 and, as its input, the prompt of the request:
    the built prompt, followed by the reference budget when the income is
    above zero. *)
Theorem get_answer_granite_request (cfg : config) (backend persona user_q : string)
    (income : float) (net : network) :
  Strip.is_blank user_q = false ->
  PyStr.startswith "Granite" backend = true ->
  truthy (HUGGINGFACE_API_TOKEN cfg) = true ->
  fst (run (get_answer cfg backend persona user_q income) net)
  = [HFPost ("https://api-inference.huggingface.co/models/" ++ GRANITE_MODEL cfg)
            (fstr (HUGGINGFACE_API_TOKEN cfg))
            (request_prompt user_q persona income) 400 ui_temperature].
Proof.
  intros Hq Hb Htok. unfold get_answer. rewrite Hq. unfold ask_backend. rewrite Hb.
  rewrite run_bind_ret_result, run_bind_ret_result. cbn [fst].
  rewrite (call_hf_inference_run cfg (request_prompt user_q persona income)
             (Some (GRANITE_MODEL cfg)) ui_max_tokens ui_temperature net Htok).
  unfold hf_request, truthy, fstr. simpl fst.
  destruct (String.eqb (GRANITE_MODEL cfg) ""); reflexivity.
Qed.

Lemma get_answer_granite_request_witness :
  fst (run (get_answer Sample.configured "Granite (HuggingFace Inference API)"
              "student" "q" 0) Sample.down)
  = [HFPost "https://api-inference.huggingface.co/models/ibm-granite/granite-3.3-2b-instruct"
            "hf_token" (request_prompt "q" "student" 0) 400 ui_temperature].
Proof.
  apply (get_answer_granite_request Sample.configured
           "Granite (HuggingFace Inference API)" "student" "q" 0 Sample.down);
    reflexivity.
Defined.

(** ** Side bar *)

Lemma tick_true_false : tick true <> tick false.
Proof. discriminate. Qed.

Lemma status_line_cross (label : string) (b : bool) :
  label ++ tick b = label ++ tick false -> b = false.
Proof.
  intros H. apply str_app_inv_head in H. destruct b; [|reflexivity].
  now apply tick_true_false in H.
Qed.

(** X18. The side bar agrees with the guards of the two clients: it shows
    the cross for the Hugging Face token exactly when [call_hf_inference]
    refuses to call (it returns the "token not set" message and issues no
    request), and the cross for Watson exactly when
    [call_watson_assistant] returns ["Watson not configured."] without a
    request. *)
Theorem side_bar_agrees_with_guards (cfg : config) :
  (hf_status_line cfg = "Hugging Face token set: " ++ tick false
   <-> forall prompt model max_tokens temperature net,
         run (call_hf_inference cfg prompt model max_tokens temperature) net
         = ([], Ok (JStr hf_token_not_set)))
  /\ (watson_status_line cfg = "Watson configured: " ++ tick false
      <-> forall message net,
            run (call_watson_assistant cfg message) net
            = ([], Ok watson_not_configured)).
Proof.
  split; split.
  - intros H prompt model max_tokens temperature net.
    apply status_line_cross in H. unfold call_hf_inference. now rewrite H.
  - intros H. unfold hf_status_line.
    destruct (truthy (HUGGINGFACE_API_TOKEN cfg)) eqn:Htok; [|reflexivity].
    specialize (H "" None 0%Z 0%float Sample.down).
    rewrite (call_hf_inference_run cfg "" None 0%Z 0%float Sample.down Htok) in H.
    discriminate H.
  - intros H message net.
    apply status_line_cross in H. unfold call_watson_assistant, watson_configured.
    now rewrite H.
  - intros H. unfold watson_status_line.
    destruct (truthy (WATSON_APIKEY cfg) && truthy (WATSON_URL cfg)
              && truthy (WATSON_ASSISTANT_ID cfg)) eqn:Hcfg; [|reflexivity].
    specialize (H "" Sample.down).
    rewrite (call_watson_assistant_run cfg "" Sample.down Hcfg) in H.
    destruct (snd (run (watson_create_session _ _ _) Sample.down)) as [sid|e];
      [|discriminate H].
    destruct (snd (run (watson_send_message _ _ _ sid "") Sample.down));
      discriminate H.
Qed.

Lemma side_bar_agrees_with_guards_witness :
  run (call_hf_inference Sample.unconfigured "p" None 400 0.5) Sample.down
  = ([], Ok (JStr hf_token_not_set))
  /\ run (call_watson_assistant Sample.watson_empty "hi") Sample.down
     = ([], Ok watson_not_configured).
Proof.
  split.
  - apply (proj1 (proj1 (side_bar_agrees_with_guards Sample.unconfigured))). reflexivity.
  - apply (proj1 (proj2 (side_bar_agrees_with_guards Sample.watson_empty))). reflexivity.
Defined.

(** * Binary64 arithmetic

    What the primitive operations return is specified by [SpecFloat]; the
    lemmas below derive from it the error bounds of additions, subtractions
    and of the two multiplications of the budget split. *)

Local Open Scope Z_scope.

(** ** Right shifts with round and sticky bits *)

Lemma iter_pos_nat {A} (f : A -> A) (p : positive) :
  forall x, iter_pos f p x = Nat.iter (Pos.to_nat p) f x.
Proof.
  induction p as [p IH|p IH|]; intros x; simpl iter_pos.
  - rewrite !IH, Pos2Nat.inj_xI.
    replace (S (2 * Pos.to_nat p)) with (Pos.to_nat p + (Pos.to_nat p + 1))%nat by lia.
    rewrite !Nat.iter_add. reflexivity.
  - rewrite !IH, Pos2Nat.inj_xO.
    replace (2 * Pos.to_nat p)%nat with (Pos.to_nat p + Pos.to_nat p)%nat by lia.
    rewrite Nat.iter_add. reflexivity.
  - reflexivity.
Qed.

Definition b2z (b : bool) : Z := if b then 1 else 0.

(** [shifted M P mrs]: [mrs] is [M] shifted right by [k] bits where
    [P = 2^k], the round bit being the last bit shifted out and the sticky
    bit telling whether anything below it was set. *)
Definition shifted (M P : Z) (mrs : shr_record) : Prop :=
  0 <= shr_m mrs /\
  exists t, 2 * M = shr_m mrs * (2 * P) + b2z (shr_r mrs) * P + t
            /\ 0 <= t < P
            /\ (shr_s mrs = false <-> t = 0).

Lemma shifted_start (M : Z) :
  0 <= M -> shifted M 1 (Build_shr_record M false false).
Proof.
  intros HM. split; [exact HM|]. exists 0. cbv beta iota delta [shr_m shr_r shr_s b2z].
  split; [lia|]. split; [lia|]. tauto.
Qed.

Lemma shifted_step (M P : Z) (mrs : shr_record) :
  0 < P -> shifted M P mrs -> shifted M (2 * P) (shr_1 mrs).
Proof.
  intros HP [Hm (t & Ht & Hr & Hs)].
  destruct mrs as [m r s]. cbv beta iota delta [shr_m shr_r shr_s] in *.
  assert (Hst : (r || s = false) <-> b2z r * P + t = 0).
  { destruct r; cbn [b2z orb].
    - split; [discriminate | lia].
    - split; intros H; [apply Hs in H; lia | apply Hs; lia]. }
  assert (Hb : 0 <= b2z r * P + t < 2 * P) by (destruct r; cbn [b2z]; lia).
  destruct m as [|[p|p|]|p]; try lia; cbv beta iota zeta delta [shifted shr_1 shr_m shr_r shr_s];
    try pose proof (Pos2Z.inj_xI p) as Hp; try pose proof (Pos2Z.inj_xO p) as Hp';
    (split; [lia|]);
    exists (b2z r * P + t); cbn [b2z]; (split; [lia | split; [exact Hb | exact Hst]]).
Qed.

Lemma shifted_iter (M : Z) (n : nat) (mrs : shr_record) (P : Z) :
  0 < P -> shifted M P mrs -> shifted M (P * 2 ^ Z.of_nat n) (Nat.iter n shr_1 mrs).
Proof.
  intros HP H. induction n as [|n IH].
  - simpl. now rewrite Z.mul_1_r.
  - rewrite Nat2Z.inj_succ, Z.pow_succ_r by lia. simpl Nat.iter.
    replace (P * (2 * 2 ^ Z.of_nat n)) with (2 * (P * 2 ^ Z.of_nat n)) by lia.
    apply shifted_step; [|exact IH].
    assert (0 < 2 ^ Z.of_nat n) by (apply Z.pow_pos_nonneg; lia). lia.
Qed.

(** Rounding to nearest after a shift is off by at most half a unit. *)
Lemma round_nearest_even_shifted (M P : Z) (mrs : shr_record) :
  0 < P -> shifted M P mrs ->
  let m1 := round_nearest_even (shr_m mrs) (loc_of_shr_record mrs) in
  shr_m mrs <= m1 <= shr_m mrs + 1
  /\ - P <= 2 * M - m1 * (2 * P) <= P.
Proof.
  intros HP [Hm (t & Ht & Hr & Hs)].
  destruct mrs as [m r s]. cbv beta iota delta [shr_m shr_r shr_s] in *.
  destruct r, s; cbv beta iota delta [b2z loc_of_shr_record round_nearest_even] in *.
  - lia.
  - assert (t = 0) by now apply Hs. subst t.
    destruct (Z.even m); lia.
  - lia.
  - assert (t = 0) by now apply Hs. subst t. lia.
Qed.

Lemma shr_shifted (M e n : Z) :
  0 <= M -> 0 <= n ->
  shifted M (2 ^ n) (fst (shr (Build_shr_record M false false) e n))
  /\ snd (shr (Build_shr_record M false false) e n) = e + n.
Proof.
  intros HM Hn. destruct n as [|p|p]; try lia.
  - cbn [shr fst snd]. split; [now apply shifted_start | lia].
  - cbn [shr fst snd]. split; [|reflexivity]. rewrite iter_pos_nat.
    replace (2 ^ Zpos p) with (1 * 2 ^ Z.of_nat (Pos.to_nat p))
      by (rewrite positive_nat_Z; lia).
    apply shifted_iter; [lia | now apply shifted_start].
Qed.

(** ** Number of binary digits *)

Lemma digits2_pos_bounds (p : positive) :
  2 ^ (Zpos (digits2_pos p) - 1) <= Zpos p < 2 ^ Zpos (digits2_pos p).
Proof.
  induction p as [p IH|p IH|]; cbn [digits2_pos].
  - rewrite Pos2Z.inj_succ, Pos2Z.inj_xI.
    replace (Z.succ (Zpos (digits2_pos p)) - 1) with (Z.succ (Zpos (digits2_pos p) - 1)) by lia.
    rewrite !Z.pow_succ_r by lia. lia.
  - rewrite Pos2Z.inj_succ. pose proof (Pos2Z.inj_xO p) as HxO.
    replace (Z.succ (Zpos (digits2_pos p)) - 1) with (Z.succ (Zpos (digits2_pos p) - 1)) by lia.
    rewrite !Z.pow_succ_r by lia. lia.
  - change (2 ^ (1 - 1)) with 1. change (2 ^ 1) with 2. lia.
Qed.

Lemma fexp_eq (e : Z) : fexp prec emax e = Z.max (e - 53) (-1074).
Proof. reflexivity. Qed.

Lemma pow2_pos (k : Z) : 0 <= k -> 0 < 2 ^ k.
Proof. intros H. apply Z.pow_pos_nonneg; lia. Qed.

Lemma pow2_le (a b : Z) : 0 <= a <= b -> 2 ^ a <= 2 ^ b.
Proof. intros H. apply Z.pow_le_mono_r; lia. Qed.

Lemma pow2_split (a b : Z) : 0 <= a -> 0 <= b -> 2 ^ (a + b) = 2 ^ a * 2 ^ b.
Proof. intros Ha Hb. now rewrite Z.pow_add_r. Qed.

(** ** The rounding of a positive integer mantissa *)

Lemma shr_exact_loc (M e n : Z) :
  0 <= M ->
  let k := Z.max n 0 in
  shifted M (2 ^ k) (fst (shr (Build_shr_record M false false) e n))
  /\ snd (shr (Build_shr_record M false false) e n) = e + k.
Proof.
  intros HM k. unfold k. destruct (Z_le_dec 0 n) as [Hn|Hn].
  - rewrite Z.max_l by lia. now apply shr_shifted.
  - rewrite Z.max_r by lia. destruct n as [|p|p]; try lia.
    cbn [shr fst snd]. split; [now apply shifted_start | lia].
Qed.

Definition two52 : positive := 4503599627370496.

(** What [binary_round_aux] returns for the rounded mantissa [m1] at
    exponent [e1]. *)
Definition rounded (s : bool) (m1 e1 : Z) : spec_float :=
  match m1 with
  | Z0 => S754_zero s
  | Zpos p =>
      if m1 =? two53
      then (if e1 + 1 <=? 971 then S754_finite s two52 (e1 + 1) else S754_infinity s)
      else (if e1 <=? 971 then S754_finite s p e1 else S754_infinity s)
  | Zneg _ => S754_nan
  end.

Lemma second_shift (s : bool) (m1 e1 : Z) :
  0 <= m1 <= two53 -> -1074 <= e1 ->
  (let '(mrs, e) := shr_fexp prec emax m1 e1 loc_Exact in
   match shr_m mrs with
   | Z0 => S754_zero s
   | Zpos m => if e <=? emax - prec then S754_finite s m e else S754_infinity s
   | Zneg _ => S754_nan
   end) = rounded s m1 e1.
Proof.
  intros Hm He. unfold shr_fexp, rounded.
  cbv beta iota delta [shr_record_of_loc].
  destruct m1 as [|p|p]; try lia.
  - cbn [Zdigits2]. rewrite fexp_eq.
    assert (Hn : Z.max (0 + e1 - 53) (-1074) - e1 <= 0) by lia.
    destruct (Z.max (0 + e1 - 53) (-1074) - e1) as [|q|q]; try lia; reflexivity.
  - cbn [Zdigits2]. rewrite fexp_eq.
    destruct (Z.eqb_spec (Zpos p) two53) as [E|E].
    + injection E as ->. change (Zpos (digits2_pos 9007199254740992)) with 54.
      replace (Z.max (54 + e1 - 53) (-1074) - e1) with 1 by lia.
      reflexivity.
    + pose proof (digits2_pos_bounds p) as [Hd _].
      assert (Hd53 : Zpos (digits2_pos p) <= 53).
      { destruct (Z_le_dec (Zpos (digits2_pos p)) 53) as [H|H]; [exact H|].
        exfalso. assert (2 ^ 53 <= 2 ^ (Zpos (digits2_pos p) - 1)) by (apply pow2_le; lia).
        change (2 ^ 53) with two53 in H0. unfold two53 in *. lia. }
      assert (Hn : Z.max (Zpos (digits2_pos p) + e1 - 53) (-1074) - e1 <= 0) by lia.
      destruct (Z.max (Zpos (digits2_pos p) + e1 - 53) (-1074) - e1) as [|q|q];
        try lia; reflexivity.
Qed.

Lemma binary_round_aux_spec (s : bool) (p : positive) (E : Z) :
  let M := Zpos p in
  let k := Z.max (fexp prec emax (Zpos (digits2_pos p) + E) - E) 0 in
  exists m1,
    - 2 ^ k <= 2 * M - m1 * (2 * 2 ^ k) <= 2 ^ k
    /\ 0 <= m1 <= two53
    /\ binary_round_aux prec emax s M E loc_Exact = rounded s m1 (E + k).
Proof.
  intros M k. unfold binary_round_aux.
  assert (HM : 0 <= M) by (unfold M; lia).
  assert (Hk : 0 <= k) by (unfold k; lia).
  assert (HP : 0 < 2 ^ k) by now apply pow2_pos.
  unfold shr_fexp at 1. cbv beta iota delta [shr_record_of_loc].
  change (Zdigits2 M) with (Zpos (digits2_pos p)).
  destruct (shr_exact_loc M E (fexp prec emax (Zpos (digits2_pos p) + E) - E) HM)
    as [Hsh He]. fold k in Hsh, He.
  destruct (shr (Build_shr_record M false false) E
              (fexp prec emax (Zpos (digits2_pos p) + E) - E)) as [mrs e'].
  cbn [fst snd] in Hsh, He. subst e'.
  destruct (round_nearest_even_shifted M (2 ^ k) mrs HP Hsh) as [Hq Herr].
  set (m1 := round_nearest_even (shr_m mrs) (loc_of_shr_record mrs)) in *.
  assert (Hm1 : 0 <= m1 <= two53).
  { destruct Hsh as [Hq0 (t & Ht & Hr & _)]. split; [lia|].
    pose proof (digits2_pos_bounds p) as [_ Hd]. fold M in Hd.
    assert (Hb : 0 <= b2z (shr_r mrs) * 2 ^ k) by (destruct (shr_r mrs); cbn [b2z]; lia).
    (* shr_m mrs * 2^k <= M < 2^d *)
    assert (Hqk : shr_m mrs * 2 ^ k <= M) by lia.
    destruct (Z_le_dec (Zpos (digits2_pos p)) (53 + k)) as [Hd53|Hd53].
    - assert (2 ^ Zpos (digits2_pos p) <= 2 ^ (53 + k)) by (apply pow2_le; lia).
      rewrite pow2_split in H by lia. change (2 ^ 53) with two53 in H.
      assert (shr_m mrs < two53); [|lia].
      apply Z.mul_lt_mono_pos_r with (p := 2 ^ k); [exact HP|]. lia.
    - exfalso. unfold k in Hd53. rewrite fexp_eq in Hd53. lia. }
  exists m1. split; [exact Herr|]. split; [exact Hm1|].
  apply second_shift; [exact Hm1|].
  unfold k. rewrite fexp_eq. lia.
Qed.

Lemma valid_finite_inv (s : bool) (m : positive) (e : Z) :
  valid_binary (S754_finite s m e) = true ->
  -1074 <= e <= 971 /\ Zpos m < two53 /\ (e = -1074 \/ two53 <= 2 * Zpos m).
Proof.
  cbn [SpecFloat.valid_binary]. unfold bounded, canonical_mantissa.
  rewrite andb_true_iff, Z.eqb_eq, Z.leb_le, fexp_eq.
  change (emax - prec) with 971. intros [Hc He].
  pose proof (digits2_pos_bounds m) as [Hlo Hhi].
  assert (Hd : Zpos (digits2_pos m) <= 53) by lia.
  split; [lia|]. split.
  - assert (2 ^ Zpos (digits2_pos m) <= 2 ^ 53) by (apply pow2_le; lia).
    change (2 ^ 53) with two53 in H. lia.
  - destruct (Z.eq_dec e (-1074)) as [E|E]; [now left | right].
    assert (Hd53 : Zpos (digits2_pos m) = 53) by lia.
    rewrite Hd53 in Hlo. change (2 ^ (53 - 1)) with 4503599627370496 in Hlo.
    unfold two53. lia.
Qed.

Lemma rounded_finite_units (s : bool) (m1 e1 : Z) :
  0 <= m1 <= two53 -> -1074 <= e1 ->
  SFfinite (rounded s m1 e1) = true ->
  SFunits (rounded s m1 e1) = cond_Zopp s (m1 * 2 ^ (e1 + 1074)).
Proof.
  intros Hm He. unfold rounded. destruct m1 as [|p|p]; try lia.
  - intros _. destruct s; reflexivity.
  - destruct (Z.eqb_spec (Zpos p) two53) as [E|E].
    + destruct (e1 + 1 <=? 971); [|discriminate]. intros _. cbn [SFunits].
      rewrite E. f_equal.
      replace (e1 + 1 + 1074) with (1 + (e1 + 1074)) by lia.
      rewrite pow2_split by lia. unfold two52, two53. change (2 ^ 1) with 2. lia.
    + destruct (e1 <=? 971); [|discriminate]. intros _. reflexivity.
Qed.

Lemma rounded_is_finite (s : bool) (m1 e1 : Z) :
  0 <= m1 <= two53 ->
  (m1 = two53 -> e1 + 1 <= 971) -> (m1 <> two53 -> e1 <= 971) ->
  SFfinite (rounded s m1 e1) = true.
Proof.
  intros Hm H1 H2. unfold rounded. destruct m1 as [|p|p]; try lia; [reflexivity|].
  destruct (Z.eqb_spec (Zpos p) two53) as [E|E].
  - specialize (H1 E). destruct (Z.leb_spec (e1 + 1) 971); [reflexivity | lia].
  - specialize (H2 E). destruct (Z.leb_spec e1 971); [reflexivity | lia].
Qed.

Lemma abs_cond_Zopp (s : bool) (a b : Z) :
  Z.abs (cond_Zopp s a - cond_Zopp s b) = Z.abs (a - b).
Proof. destruct s; cbn [cond_Zopp]; lia. Qed.

(** Rounding a mantissa whose exponent is at least the least one: the
    relative error is at most [2^-53], and the result is finite below the
    overflow threshold. *)
Lemma binary_round_aux_units (s : bool) (p : positive) (E : Z) :
  -1074 <= E ->
  let U := Zpos p * 2 ^ (E + 1074) in
  let r := binary_round_aux prec emax s (Zpos p) E loc_Exact in
  (SFfinite r = true -> two53 * Z.abs (SFunits r - cond_Zopp s U) <= U)
  /\ (E <= 971 -> U < overflow_units -> SFfinite r = true).
Proof.
  intros HE U r.
  destruct (binary_round_aux_spec s p E) as (m1 & Herr & Hm1 & Hr).
  fold r in Hr.
  set (k := Z.max (fexp prec emax (Zpos (digits2_pos p) + E) - E) 0) in *.
  assert (Hk : 0 <= k) by (unfold k; lia).
  set (A := 2 ^ k) in *.
  set (W := 2 ^ (E + 1074)).
  assert (HA : 0 < A) by (apply pow2_pos; lia).
  assert (HW : 0 < W) by (apply pow2_pos; lia).
  assert (HkW : 2 ^ (E + k + 1074) = A * W).
  { replace (E + k + 1074) with (k + (E + 1074)) by lia. apply pow2_split; lia. }
  pose proof (digits2_pos_bounds p) as [Hdlo Hdhi].
  (* when a shift happens the mantissa has more than 53 digits *)
  assert (Hbig : k = 0 \/ (k = Zpos (digits2_pos p) - 53 /\ two53 * A <= 2 * Zpos p)).
  { destruct (Z.eq_dec k 0) as [Hk0|Hk0]; [now left | right].
    assert (Hkd : k = Zpos (digits2_pos p) - 53) by (unfold k in *; rewrite fexp_eq in *; lia).
    split; [exact Hkd|].
    replace (Zpos (digits2_pos p) - 1) with (52 + k) in Hdlo by lia.
    rewrite pow2_split in Hdlo by lia. fold A in Hdlo.
    change (2 ^ 52) with 4503599627370496 in Hdlo. unfold two53. lia. }
  assert (Hexact : k = 0 -> m1 = Zpos p).
  { intros Hk0. unfold A in Herr. rewrite Hk0 in Herr. change (2 ^ 0) with 1 in Herr. lia. }
  split.
  - intros Hfin. rewrite Hr in Hfin |- *.
    rewrite (rounded_finite_units s m1 (E + k) Hm1 ltac:(lia) Hfin).
    rewrite abs_cond_Zopp, HkW. unfold U. fold W.
    replace (m1 * (A * W) - Zpos p * W) with ((m1 * A - Zpos p) * W) by ring.
    rewrite Z.abs_mul, (Z.abs_eq W) by lia.
    rewrite Z.mul_assoc. apply Z.mul_le_mono_nonneg_r; [lia|].
    destruct Hbig as [Hk0 | [_ Hbig]].
    + rewrite (Hexact Hk0). unfold A. rewrite Hk0. change (2 ^ 0) with 1.
      replace (Zpos p * 1 - Zpos p) with 0 by ring. cbn [Z.abs]. lia.
    + unfold two53 in *. lia.
  - intros HE971 HU. rewrite Hr.
    (* the exponent of the result *)
    assert (Hd : Zpos (digits2_pos p) + E <= 1024).
    { destruct (Z_le_dec (Zpos (digits2_pos p) + E) 1024) as [H|H]; [exact H|].
      exfalso.
      assert (2 ^ 2098 <= 2 ^ (Zpos (digits2_pos p) - 1 + (E + 1074))) by (apply pow2_le; lia).
      rewrite pow2_split in H0 by lia. fold W in H0.
      assert (2 ^ (Zpos (digits2_pos p) - 1) * W <= Zpos p * W)
        by (apply Z.mul_le_mono_nonneg_r; lia).
      fold U in H1.
      assert (overflow_units < 2 ^ 2098) by reflexivity. lia. }
    apply rounded_is_finite; [exact Hm1| |].
    + intros Htop. destruct Hbig as [Hk0 | [Hkd Hbig]].
      * exfalso. rewrite (Hexact Hk0) in Htop.
        unfold k in Hk0. rewrite fexp_eq in Hk0.
        destruct (Z_le_dec 54 (Zpos (digits2_pos p))) as [H54|H54]; [lia|].
        assert (2 ^ Zpos (digits2_pos p) <= 2 ^ 53) by (apply pow2_le; lia).
        change (2 ^ 53) with two53 in H. lia.
      * destruct (Z_le_dec (E + k + 1) 971) as [H|H]; [exact H|]. exfalso.
        assert (Hk971 : E + k = 971) by lia.
        (* 2 M >= (2^54 - 1) 2^k, hence U >= overflow_units *)
        assert (H2M : (2 * two53 - 1) * A <= 2 * Zpos p) by (rewrite Htop in Herr; lia).
        assert (HW' : W * A = 2 ^ 2045).
        { unfold W, A. rewrite <- pow2_split by lia. f_equal. lia. }
        assert ((2 * two53 - 1) * A * W <= 2 * Zpos p * W)
          by (apply Z.mul_le_mono_nonneg_r; lia).
        replace ((2 * two53 - 1) * A * W) with ((2 * two53 - 1) * (W * A)) in H0 by ring.
        rewrite HW' in H0.
        replace (2 * Zpos p * W) with (2 * U) in H0 by (unfold U; fold W; ring).
        unfold overflow_units in HU.
        change (2 ^ 2045) with (2 * 2 ^ 2044) in H0. lia.
    + intros _. destruct Hbig as [Hk0 | [Hkd _]]; lia.
Qed.

(** ** Alignment and normalization *)

Lemma pos_iter_xO (m d : positive) : Zpos (Pos.iter xO m d) = Zpos m * 2 ^ Zpos d.
Proof.
  induction d as [|d IH] using Pos.peano_ind.
  - cbn [Pos.iter]. change (2 ^ 1) with 2. pose proof (Pos2Z.inj_xO m). lia.
  - rewrite Pos.iter_succ, Pos2Z.inj_succ, Z.pow_succ_r by lia.
    pose proof (Pos2Z.inj_xO (Pos.iter xO m d)). lia.
Qed.

Lemma shl_align_spec (m : positive) (e f : Z) :
  -1074 <= e -> -1074 <= f ->
  snd (shl_align m e f) = Z.min e f
  /\ Zpos (fst (shl_align m e f)) * 2 ^ (snd (shl_align m e f) + 1074)
     = Zpos m * 2 ^ (e + 1074).
Proof.
  intros He Hf. unfold shl_align. destruct (f - e) as [|d|d] eqn:Hd; cbn [fst snd].
  - split; [lia | reflexivity].
  - split; [lia | reflexivity].
  - split; [lia|]. rewrite pos_iter_xO.
    replace (e + 1074) with (Zpos d + (f + 1074)) by lia.
    rewrite (pow2_split (Zpos d) (f + 1074)) by lia. ring.
Qed.

Lemma binary_round_units (s : bool) (m : positive) (e : Z) :
  -1074 <= e <= 971 ->
  let U := Zpos m * 2 ^ (e + 1074) in
  let r := binary_round prec emax s m e in
  (SFfinite r = true -> two53 * Z.abs (SFunits r - cond_Zopp s U) <= U)
  /\ (U < overflow_units -> SFfinite r = true).
Proof.
  intros He U r. unfold r, binary_round.
  set (f := fexp prec emax (Zpos (digits2_pos m) + e)).
  assert (Hf : -1074 <= f) by (unfold f; rewrite fexp_eq; lia).
  destruct (shl_align_spec m e f ltac:(lia) Hf) as [Hz HU].
  destruct (shl_align m e f) as [mz ez]. cbn [fst snd] in Hz, HU.
  destruct (binary_round_aux_units s mz ez ltac:(lia)) as [H1 H2].
  rewrite HU in H1, H2. fold U in H1, H2.
  split; [exact H1 | apply H2; lia].
Qed.

Lemma binary_normalize_units (M e : Z) :
  -1074 <= e <= 971 ->
  let U := M * 2 ^ (e + 1074) in
  let r := binary_normalize prec emax M e false in
  (Z.abs U < overflow_units -> SFfinite r = true)
  /\ (SFfinite r = true -> two53 * Z.abs (SFunits r - U) <= Z.abs U).
Proof.
  intros He U r. unfold r, binary_normalize.
  assert (HW : 0 < 2 ^ (e + 1074)) by (apply pow2_pos; lia).
  destruct M as [|m|m].
  - split; [reflexivity|]. intros _. unfold U. cbn [SFunits]. lia.
  - destruct (binary_round_units false m e He) as [H1 H2].
    cbn [cond_Zopp] in H1. fold U in H1, H2.
    split; [intros HU; apply H2; lia | intros Hf; specialize (H1 Hf); lia].
  - destruct (binary_round_units true m e He) as [H1 H2].
    cbn [cond_Zopp] in H1.
    assert (HU : U = - (Zpos m * 2 ^ (e + 1074))) by (unfold U; lia).
    split; [intros Hlt; apply H2; lia | intros Hf; specialize (H1 Hf); lia].
Qed.

(** ** Addition and subtraction *)

Lemma cond_Zopp_mul (s : bool) (a w : Z) : cond_Zopp s a * w = cond_Zopp s (a * w).
Proof. destruct s; cbn [cond_Zopp]; ring. Qed.

Lemma aligned_units (s : bool) (m : positive) (e ez : Z) :
  -1074 <= ez <= e ->
  cond_Zopp s (Zpos (fst (shl_align m e ez))) * 2 ^ (ez + 1074)
  = SFunits (S754_finite s m e).
Proof.
  intros H. cbn [SFunits]. rewrite cond_Zopp_mul. f_equal.
  destruct (shl_align_spec m e ez ltac:(lia) ltac:(lia)) as [Hz HU].
  rewrite Hz in HU. rewrite Z.min_r in HU by lia. exact HU.
Qed.

Definition SFvalid_finite (x : spec_float) : Prop :=
  valid_binary x = true /\ SFfinite x = true.

Lemma SFadd_units (x y : spec_float) :
  SFvalid_finite x -> SFvalid_finite y ->
  let U := SFunits x + SFunits y in
  (Z.abs U < overflow_units -> SFfinite (SFadd prec emax x y) = true)
  /\ (SFfinite (SFadd prec emax x y) = true ->
      two53 * Z.abs (SFunits (SFadd prec emax x y) - U) <= Z.abs U).
Proof.
  intros [Vx Fx] [Vy Fy] U. unfold U.
  destruct x as [sx|sx| |sx mx ex]; try discriminate;
    destruct y as [sy|sy| |sy my ey]; try discriminate.
  - destruct sx, sy; cbn [SFadd SFunits SFfinite]; split; try reflexivity; intros _; lia.
  - cbn [SFadd SFunits SFfinite]. split; [reflexivity|]. intros _.
    replace (_ - _) with 0 by lia. cbn [Z.abs]. lia.
  - cbn [SFadd SFunits SFfinite]. split; [reflexivity|]. intros _.
    replace (_ - _) with 0 by lia. cbn [Z.abs]. lia.
  - apply valid_finite_inv in Vx, Vy.
    cbv beta iota zeta delta [SFadd].
    set (ez := Z.min ex ey).
    assert (Hez : -1074 <= ez <= 971) by (unfold ez; lia).
    pose proof (binary_normalize_units
                  (cond_Zopp sx (Zpos (fst (shl_align mx ex ez)))
                   + cond_Zopp sy (Zpos (fst (shl_align my ey ez)))) ez Hez) as H.
    cbv zeta in H.
    rewrite Z.mul_add_distr_r in H.
    rewrite !aligned_units in H by (unfold ez; lia).
    exact H.
Qed.

Lemma SFsub_units (x y : spec_float) :
  SFvalid_finite x -> SFvalid_finite y ->
  let U := SFunits x - SFunits y in
  (Z.abs U < overflow_units -> SFfinite (SFsub prec emax x y) = true)
  /\ (SFfinite (SFsub prec emax x y) = true ->
      two53 * Z.abs (SFunits (SFsub prec emax x y) - U) <= Z.abs U).
Proof.
  intros [Vx Fx] [Vy Fy] U. unfold U.
  destruct x as [sx|sx| |sx mx ex]; try discriminate;
    destruct y as [sy|sy| |sy my ey]; try discriminate.
  - destruct sx, sy; cbn [SFsub SFunits SFfinite]; split; try reflexivity; intros _; lia.
  - cbn [SFsub SFunits SFfinite]. split; [reflexivity|]. intros _.
    replace (_ - _) with 0 by (destruct sy; cbn [negb cond_Zopp]; lia).
    cbn [Z.abs]. lia.
  - cbn [SFsub SFunits SFfinite]. split; [reflexivity|]. intros _.
    replace (_ - _) with 0 by lia. cbn [Z.abs]. lia.
  - apply valid_finite_inv in Vx, Vy.
    cbv beta iota zeta delta [SFsub].
    set (ez := Z.min ex ey).
    assert (Hez : -1074 <= ez <= 971) by (unfold ez; lia).
    pose proof (binary_normalize_units
                  (cond_Zopp sx (Zpos (fst (shl_align mx ex ez)))
                   - cond_Zopp sy (Zpos (fst (shl_align my ey ez)))) ez Hez) as H.
    cbv zeta in H.
    rewrite Z.mul_sub_distr_r in H.
    rewrite !aligned_units in H by (unfold ez; lia).
    exact H.
Qed.

(** ** Multiplication by a constant of at most one half *)

Lemma SFmul_small_units (mx : positive) (ex : Z) (my : positive) (ey : Z) :
  valid_binary (S754_finite false mx ex) = true ->
  ey < 0 -> 2 * Zpos my <= 2 ^ (- ey) ->
  let r := SFmul prec emax (S754_finite false mx ex) (S754_finite false my ey) in
  let G := 2 ^ (ex + 1074) in
  let I := Zpos mx * G in
  let T := 2 ^ (- ey) in
  SFfinite r = true
  /\ 0 <= SFunits r
  /\ 2 * I * Zpos my - T * G <= 2 * SFunits r * T <= 2 * I * Zpos my + T * G.
Proof.
  intros Vx Hey Hmy r G I T.
  apply valid_finite_inv in Vx. destruct Vx as (Hex & Hmx & _).
  unfold r. cbn [SFmul xorb].
  destruct (binary_round_aux_spec false (mx * my) (ex + ey)) as (m1 & Herr & Hm1 & Hr).
  rewrite Hr. clear Hr.
  set (d := Zpos (digits2_pos (mx * my))) in *.
  set (k := Z.max (fexp prec emax (d + (ex + ey)) - (ex + ey)) 0) in *.
  set (A := 2 ^ k) in *.
  assert (Hk0 : 0 <= k) by (unfold k; lia).
  assert (HA : 0 < A) by (apply pow2_pos; lia).
  assert (HG : 0 < G) by (apply pow2_pos; lia).
  assert (HT : 0 < T) by (apply pow2_pos; lia).
  (* the product has at most [52 - ey] digits *)
  assert (Hd : d <= 52 - ey).
  { pose proof (digits2_pos_bounds (mx * my)) as [Hlo _]. fold d in Hlo.
    rewrite Pos2Z.inj_mul in Hlo.
    destruct (Z_le_dec d (52 - ey)) as [H|H]; [exact H|]. exfalso.
    assert (2 ^ (53 + (- ey - 1)) <= 2 ^ (d - 1)) by (apply pow2_le; lia).
    rewrite pow2_split in H0 by lia. change (2 ^ 53) with two53 in H0.
    assert (H2 : 2 * 2 ^ (- ey - 1) = T).
    { unfold T. replace (- ey) with (1 + (- ey - 1)) at 2 by lia.
      rewrite pow2_split by lia. reflexivity. }
    assert (Zpos mx * Zpos my < two53 * 2 ^ (- ey - 1)); [|lia].
    apply Z.le_lt_trans with (Zpos mx * 2 ^ (- ey - 1)).
    - apply Z.mul_le_mono_nonneg_l; lia.
    - apply Z.mul_lt_mono_pos_r; [apply pow2_pos|]; lia. }
  assert (Hk : ex + ey + k <= ex /\ -1074 <= ex + ey + k /\ ex + ey + k <= 970 \/
               ex + ey + k <= ex /\ -1074 <= ex + ey + k /\ ex + ey + k <= 971
               /\ m1 <> two53).
  { unfold k. rewrite fexp_eq.
    destruct (Z.eq_dec m1 two53) as [Htop|Htop]; [left | right]; lia. }
  assert (Hke : k <= - ey) by lia.
  assert (HAT : A <= T) by (apply pow2_le; lia).
  assert (Hfin : SFfinite (rounded false m1 (ex + ey + k)) = true).
  { apply rounded_is_finite; [exact Hm1| |]; intros; lia. }
  split; [exact Hfin|].
  rewrite (rounded_finite_units false m1 (ex + ey + k) Hm1 ltac:(lia) Hfin).
  cbn [cond_Zopp].
  assert (HRT : m1 * 2 ^ (ex + ey + k + 1074) * T = m1 * A * G).
  { unfold T, A, G. rewrite <- !Z.mul_assoc. f_equal.
    rewrite <- !pow2_split by lia. f_equal. lia. }
  split.
  - apply Z.mul_nonneg_nonneg; [lia | apply Z.lt_le_incl, pow2_pos; lia].
  - replace (2 * (m1 * 2 ^ (ex + ey + k + 1074)) * T)
      with (2 * (m1 * 2 ^ (ex + ey + k + 1074) * T)) by ring.
    rewrite HRT. unfold I. rewrite Pos2Z.inj_mul in Herr.
    assert (H1 : (2 * (Zpos mx * Zpos my) - A) * G <= m1 * (2 * A) * G)
      by (apply Z.mul_le_mono_nonneg_r; lia).
    assert (H2 : m1 * (2 * A) * G <= (2 * (Zpos mx * Zpos my) + A) * G)
      by (apply Z.mul_le_mono_nonneg_r; lia).
    assert (H3 : A * G <= T * G) by (apply Z.mul_le_mono_nonneg_r; lia).
    split; [|]; 
      [ apply Z.le_trans with ((2 * (Zpos mx * Zpos my) - A) * G); [|]
      | apply Z.le_trans with ((2 * (Zpos mx * Zpos my) + A) * G); [|] ];
      ring_simplify; ring_simplify in H1; ring_simplify in H2; ring_simplify in H3; lia.
Qed.

(** ** Primitive floats *)

Lemma float_valid_finite (x : float) :
  float_finite x = true -> SFvalid_finite (Prim2SF x).
Proof. intros H. split; [apply Prim2SF_valid | exact H]. Qed.

Lemma add_units (x y : float) :
  float_finite x = true -> float_finite y = true ->
  let U := float_units x + float_units y in
  (Z.abs U < overflow_units -> float_finite (x + y) = true)
  /\ (float_finite (x + y) = true ->
      two53 * Z.abs (float_units (x + y) - U) <= Z.abs U).
Proof.
  intros Hx Hy. unfold float_finite, float_units. rewrite add_spec.
  apply SFadd_units; now apply float_valid_finite.
Qed.

Lemma sub_units (x y : float) :
  float_finite x = true -> float_finite y = true ->
  let U := float_units x - float_units y in
  (Z.abs U < overflow_units -> float_finite (x - y) = true)
  /\ (float_finite (x - y) = true ->
      two53 * Z.abs (float_units (x - y) - U) <= Z.abs U).
Proof.
  intros Hx Hy. unfold float_finite, float_units. rewrite sub_spec.
  apply SFsub_units; now apply float_valid_finite.
Qed.

Lemma units_bound (x : float) :
  float_finite x = true -> Z.abs (float_units x) <= max_units.
Proof.
  intros H. unfold float_units, float_finite in *.
  pose proof (Prim2SF_valid x) as V.
  destruct (Prim2SF x) as [s|s| |s m e]; try discriminate;
    try (cbn [SFunits Z.abs]; unfold max_units, two53; lia).
  apply valid_finite_inv in V. destruct V as (He & Hm & _).
  cbn [SFunits]. replace (Z.abs (cond_Zopp s (Zpos m * 2 ^ (e + 1074))))
    with (Zpos m * 2 ^ (e + 1074)).
  - unfold max_units.
    apply Z.mul_le_mono_nonneg;
      [lia | lia | apply Z.lt_le_incl, pow2_pos; lia | apply pow2_le; lia].
  - assert (0 < 2 ^ (e + 1074)) by (apply pow2_pos; lia).
    destruct s; cbn [cond_Zopp]; lia.
Qed.

Lemma positive_finite (x : float) :
  (0 <? x)%float = true -> float_finite x = true ->
  exists m e, Prim2SF x = S754_finite false m e.
Proof.
  rewrite ltb_spec. change (Prim2SF 0) with (S754_zero false).
  unfold float_finite, SFltb.
  destruct (Prim2SF x) as [s|s| |s m e]; cbn; try discriminate.
  destruct s; try discriminate. intros _ _. now exists m, e.
Qed.

(** ** The budget split *)

Lemma valid_of_float (x : float) (s : bool) (m : positive) (e : Z) :
  Prim2SF x = S754_finite s m e -> valid_binary (S754_finite s m e) = true.
Proof. intros <-. apply Prim2SF_valid. Qed.

Lemma mul_half_units (x : float) (m : positive) (e : Z) :
  Prim2SF x = S754_finite false m e ->
  let G := 2 ^ (e + 1074) in
  let I := float_units x in
  float_finite (x * default_essentials_pct) = true
  /\ 0 <= float_units (x * default_essentials_pct)
  /\ I - G <= 2 * float_units (x * default_essentials_pct) <= I + G.
Proof.
  intros Hx G I. unfold float_finite, float_units in *. subst I.
  rewrite mul_spec, Hx.
  change (Prim2SF default_essentials_pct) with (S754_finite false 4503599627370496 (-53)).
  destruct (SFmul_small_units m e 4503599627370496 (-53) (valid_of_float x _ _ _ Hx))
    as (Hf & H0 & Hb); [lia | discriminate |].
  split; [exact Hf|]. split; [exact H0|].
  cbn [SFunits cond_Zopp]. fold G in Hb |- *.
  change (2 ^ (- -53)) with 9007199254740992 in Hb.
  unfold SF64mul. lia.
Qed.

Lemma mul_fifth_units (x : float) (m : positive) (e : Z) :
  Prim2SF x = S754_finite false m e ->
  let G := 2 ^ (e + 1074) in
  let I := float_units x in
  float_finite (x * default_savings_pct) = true
  /\ 0 <= float_units (x * default_savings_pct)
  /\ 2 * 7205759403792794 * I - 36028797018963968 * G
     <= 72057594037927936 * float_units (x * default_savings_pct)
     <= 2 * 7205759403792794 * I + 36028797018963968 * G.
Proof.
  intros Hx G I. unfold float_finite, float_units in *. subst I.
  rewrite mul_spec, Hx.
  change (Prim2SF default_savings_pct) with (S754_finite false 7205759403792794 (-55)).
  destruct (SFmul_small_units m e 7205759403792794 (-55) (valid_of_float x _ _ _ Hx))
    as (Hf & H0 & Hb); [lia | discriminate |].
  split; [exact Hf|]. split; [exact H0|].
  cbn [SFunits cond_Zopp]. fold G in Hb |- *.
  change (2 ^ (- -55)) with 36028797018963968 in Hb.
  unfold SF64mul. lia.
Qed.

(** The facts about a positive finite income that the analysis uses. *)
Lemma income_units (x : float) (m : positive) (e : Z) :
  Prim2SF x = S754_finite false m e ->
  let G := 2 ^ (e + 1074) in
  let I := float_units x in
  1 <= G /\ G <= I /\ (G = 1 \/ two53 * G <= 2 * I) /\ I <= max_units
  /\ (max_units - 4 * 2 ^ 2045 < I -> e = 971 /\ two53 - 5 < Zpos m).
Proof.
  intros Hx G I.
  pose proof (valid_of_float x _ _ _ Hx) as V. apply valid_finite_inv in V.
  destruct V as (He & Hm & Hn).
  assert (HI : I = Zpos m * G) by (unfold I, float_units; rewrite Hx; reflexivity).
  assert (HG : 0 < G) by (apply pow2_pos; lia).
  assert (HGle : G <= 2 ^ 2045) by (apply pow2_le; lia).
  split; [lia|]. split; [nia|]. split.
  - destruct Hn as [-> | Hn]; [left; reflexivity | right; nia].
  - split.
    + unfold max_units. rewrite HI.
      apply Z.mul_le_mono_nonneg; lia.
    + intros Htop. unfold max_units in Htop.
      destruct (Z.eq_dec e 971) as [->|Hne].
      * split; [reflexivity|]. change (2 ^ (971 + 1074)) with (2 ^ 2045) in G.
        subst G. rewrite HI in Htop.
        assert (0 < 2 ^ 2045) by reflexivity. nia.
      * exfalso. assert (G <= 2 ^ 2044) by (apply pow2_le; lia).
        assert (Zpos m * G <= two53 * 2 ^ 2044)
          by (apply Z.mul_le_mono_nonneg; lia).
        change (2 ^ 2045) with (2 * 2 ^ 2044) in Htop. unfold two53 in *.
        assert (0 < 2 ^ 2044) by reflexivity. lia.
Qed.

Lemma budget_ok_below_top (income : float) :
  (0 <? income)%float = true -> float_finite income = true ->
  float_units income <= max_units - 4 * 2 ^ 2045 ->
  budget_ok income = true.
Proof.
  intros Hpos Hfin Hlow.
  destruct (positive_finite income Hpos Hfin) as (m & e & Hx).
  destruct (income_units income m e Hx) as (HG1 & HGI & HGn & HImax & _).
  destruct (mul_half_units income m e Hx) as (Fe & He0 & Heb).
  destruct (mul_fifth_units income m e Hx) as (Fs & Hs0 & Hsb).
  set (G := 2 ^ (e + 1074)) in *.
  set (I := float_units income) in *.
  set (es := (income * default_essentials_pct)%float) in *.
  set (sv := (income * default_savings_pct)%float) in *.
  set (Ue := float_units es) in *. set (Us := float_units sv) in *.
  (* income - essentials *)
  destruct (sub_units income es Hfin Fe) as [Fa Ea]. fold I Ue in Fa, Ea.
  assert (Fa' : float_finite (income - es) = true)
    by (apply Fa; unfold overflow_units, max_units, two53 in *; lia).
  specialize (Ea Fa'). clear Fa.
  set (a := (income - es)%float) in *. set (Ua := float_units a) in *.
  pose proof (units_bound a Fa') as Ba. fold Ua in Ba.
  pose proof (units_bound sv Fs) as Bs. fold Us in Bs.
  (* ... - savings *)
  destruct (sub_units a sv Fa' Fs) as [Fd Ed]. fold Ua Us in Fd, Ed.
  assert (Fd' : float_finite (a - sv) = true)
    by (apply Fd; unfold overflow_units, max_units, two53 in *; lia).
  specialize (Ed Fd'). clear Fd.
  set (d := (a - sv)%float) in *. set (Ud := float_units d) in *.
  (* essentials + savings *)
  destruct (add_units es sv Fe Fs) as [Ft Et]. fold Ue Us in Ft, Et.
  assert (Ft' : float_finite (es + sv) = true)
    by (apply Ft; unfold overflow_units, max_units, two53 in *; lia).
  specialize (Et Ft'). clear Ft.
  set (t := (es + sv)%float) in *. set (Ut := float_units t) in *.
  (* ... + discretionary *)
  destruct (add_units t d Ft' Fd') as [FT ET]. fold Ut Ud in FT, ET.
  assert (FT' : float_finite (t + d) = true)
    by (apply FT; unfold overflow_units, max_units, two53 in *; lia).
  specialize (ET FT'). clear FT.
  unfold budget_ok, budget_amounts. fold es sv a d t.
  rewrite Fe, Fs, Fd', FT'. cbn [andb].
  fold Ue Us Ud I.
  rewrite !andb_true_iff, !Z.leb_le.
  unfold overflow_units, max_units, two53 in *.
  repeat split; lia.
Qed.

Lemma budget_ok_top (income : float) :
  (0 <? income)%float = true -> float_finite income = true ->
  max_units - 4 * 2 ^ 2045 < float_units income ->
  budget_ok income = true.
Proof.
  intros Hpos Hfin Htop.
  destruct (positive_finite income Hpos Hfin) as (m & e & Hx).
  destruct (income_units income m e Hx) as (_ & _ & _ & _ & Hm).
  destruct (Hm Htop) as [-> Hlo]. clear Hm.
  pose proof (valid_of_float income _ _ _ Hx) as V. apply valid_finite_inv in V.
  destruct V as (_ & Hhi & _).
  rewrite <- (SF2Prim_Prim2SF income), Hx.
  unfold two53 in *.
  assert (Hcases : m = 9007199254740988%positive \/ m = 9007199254740989%positive
                   \/ m = 9007199254740990%positive \/ m = 9007199254740991%positive)
    by lia.
  destruct Hcases as [-> | [-> | [-> | ->]]]; vm_compute; reflexivity.
Qed.

Lemma budget_ok_always (income : float) :
  (0 <? income)%float = true -> float_finite income = true ->
  budget_ok income = true.
Proof.
  intros Hpos Hfin.
  destruct (Z_le_dec (float_units income) (max_units - 4 * 2 ^ 2045)) as [H|H].
  - now apply budget_ok_below_top.
  - apply budget_ok_top; [assumption | assumption | lia].
Qed.

(** ** BudgetCalculator with the default fractions *)

Lemma budget_ok_true (income : float) :
  budget_ok income = true ->
  let '(essentials, savings, discretionary) :=
    budget_amounts income default_essentials_pct default_savings_pct in
  let total := (essentials + savings + discretionary)%float in
  (float_finite essentials = true /\ float_finite savings = true
   /\ float_finite discretionary = true /\ float_finite total = true)
  /\ (0 <= float_units essentials /\ 0 <= float_units savings
      /\ 0 <= float_units discretionary)
  /\ 2 ^ 50 * Z.abs (float_units total - float_units income) <= float_units income.
Proof.
  unfold budget_ok, budget_amounts.
  rewrite !andb_true_iff, !Z.leb_le. tauto.
Qed.

(** X19. For every finite income above zero and the default fractions 0.5
    and 0.2, the sum essentials + savings + discretionary computed in
    binary64 is finite and differs from the income by at most [2^-50] times
    the income; the difference is taken on the exact values, counted in
    units of [2^-1074]. *)
Theorem budget_sum_close_to_income (income : float) :
  (0 <? income)%float = true ->
  float_finite income = true ->
  let '(essentials, savings, discretionary) :=
    budget_amounts income default_essentials_pct default_savings_pct in
  let total := (essentials + savings + discretionary)%float in
  float_finite total = true
  /\ 2 ^ 50 * Z.abs (float_units total - float_units income) <= float_units income.
Proof.
  intros Hpos Hfin.
  pose proof (budget_ok_true income (budget_ok_always income Hpos Hfin)) as H.
  unfold budget_amounts in *. cbv zeta in *. tauto.
Qed.

Lemma budget_sum_close_to_income_witness :
  let '(essentials, savings, discretionary) :=
    budget_amounts 0x1.81cd5c28f5c29p+13 default_essentials_pct default_savings_pct in
  let total := (essentials + savings + discretionary)%float in
  float_finite total = true
  /\ 2 ^ 50 * Z.abs (float_units total - float_units 0x1.81cd5c28f5c29p+13)
     <= float_units 0x1.81cd5c28f5c29p+13.
Proof.
  apply (budget_sum_close_to_income 0x1.81cd5c28f5c29p+13); reflexivity.
Defined.

(** The sum is not always the income itself: for 12345.67 it is the next
    float above. *)
Lemma budget_sum_not_always_exact :
  let '(essentials, savings, discretionary) :=
    budget_amounts 0x1.81cd5c28f5c29p+13 default_essentials_pct default_savings_pct in
  (essentials + savings + discretionary =? 0x1.81cd5c28f5c29p+13)%float = false
  /\ (essentials + savings + discretionary)%float = 0x1.81cd5c28f5c2ap+13%float.
Proof. split; reflexivity. Qed.

(** X20. For every finite income above zero and the default fractions, the
    three amounts are finite and none is negative: in particular the
    discretionary amount, the remainder after two rounded products and two
    rounded subtractions, never falls below zero. *)
Theorem budget_amounts_not_negative (income : float) :
  (0 <? income)%float = true ->
  float_finite income = true ->
  let '(essentials, savings, discretionary) :=
    budget_amounts income default_essentials_pct default_savings_pct in
  (float_finite essentials = true /\ float_finite savings = true
   /\ float_finite discretionary = true)
  /\ 0 <= float_units essentials
  /\ 0 <= float_units savings
  /\ 0 <= float_units discretionary.
Proof.
  intros Hpos Hfin.
  pose proof (budget_ok_true income (budget_ok_always income Hpos Hfin)) as H.
  unfold budget_amounts in *. cbv zeta in *. tauto.
Qed.

Lemma budget_amounts_not_negative_witness :
  let '(essentials, savings, discretionary) :=
    budget_amounts 0x3p-1074 default_essentials_pct default_savings_pct in
  (float_finite essentials = true /\ float_finite savings = true
   /\ float_finite discretionary = true)
  /\ 0 <= float_units essentials
  /\ 0 <= float_units savings
  /\ 0 <= float_units discretionary.
Proof.
  apply (budget_amounts_not_negative 0x3p-1074); reflexivity.
Defined.

(** ** The three amounts and the income *)

(** With fractions that sum beyond 100% the remainder is negative: 80% and
    50% of 30000 leave -9000. *)
Lemma discretionary_negative_beyond_100_pct :
  budget_amounts 30000 0x1.999999999999ap-1 0.5 = (24000, 15000, -9000)%float
  /\ (-9000 <? 0)%float = true.
Proof. split; reflexivity. Qed.

(** C6. For every income above zero (a finite binary64 number, as the number
    input produces) and the default fractions 0.5 and 0.2, the discretionary
    amount is the float [income - essentials - savings], and the float sum
    essentials + savings + discretionary is finite and equals the income
    within floating-point tolerance: the two differ by at most [2^-50]
    times the income, taken on the exact values in units of [2^-1074].
    The discretionary amount is not kept above zero by the code: with the
    fractions 0.8 and 0.5 an income of 30000 leaves -9000. *)
Theorem budget_default_amounts_sum_to_income (income : float) :
  (0 <? income)%float = true ->
  float_finite income = true ->
  let '(essentials, savings, discretionary) :=
    budget_amounts income default_essentials_pct default_savings_pct in
  let total := (essentials + savings + discretionary)%float in
  discretionary = (income - essentials - savings)%float
  /\ float_finite total = true
  /\ 2 ^ 50 * Z.abs (float_units total - float_units income) <= float_units income
  /\ (let '(_, _, beyond) := budget_amounts 30000 0x1.999999999999ap-1 0.5 in
      (beyond <? 0)%float = true).
Proof.
  intros Hpos Hfin.
  pose proof (budget_ok_true income (budget_ok_always income Hpos Hfin)) as H.
  unfold budget_amounts in *. cbv zeta in *.
  split; [reflexivity|]. split; [tauto|]. split; [tauto|]. reflexivity.
Qed.

Lemma budget_default_amounts_sum_to_income_witness :
  let '(essentials, savings, discretionary) :=
    budget_amounts 30000 default_essentials_pct default_savings_pct in
  let total := (essentials + savings + discretionary)%float in
  discretionary = (30000 - essentials - savings)%float
  /\ float_finite total = true
  /\ 2 ^ 50 * Z.abs (float_units total - float_units 30000) <= float_units 30000
  /\ (let '(_, _, beyond) := budget_amounts 30000 0x1.999999999999ap-1 0.5 in
      (beyond <? 0)%float = true).
Proof.
  apply (budget_default_amounts_sum_to_income 30000); reflexivity.
Defined.
